(** * i3bar drawing utilities (i3bar/src/draw_util.c)

    A shallow embedding of the drawing shim of i3bar and the properties its
    specification states about it.

    - C data: [char] buffers are [list ascii] holding a NUL terminator,
      [double] is IEEE 754 binary64 ([spec_float] at precision 53),
      integers are [Z] with their conversions written out.
    - Calls into XCB, cairo and libi3 are events of a small free monad
      ([prog]); a handler gives the replies of the outside world. *)

From Stdlib Require Import ZArith List Bool Ascii String Lia.
From Stdlib Require Import Floats.SpecFloat.
Import ListNotations.

Local Open Scope Z_scope.

(** ** C doubles *)

Module Double.

Definition prec : Z := 53.
Definition emax : Z := 1024.

Definition double : Type := spec_float.

(** Conversion of an integer to the nearest double (exact below 2^53). *)
Definition of_Z (n : Z) : double := binary_normalize prec emax n 0 false.

Definition div (x y : double) : double := SFdiv prec emax x y.
Definition sub (x y : double) : double := SFsub prec emax x y.
Definition leb (x y : double) : bool := SFleb x y.
Definition ltb (x y : double) : bool := SFltb x y.

Definition zero : double := S754_zero false.
Definition one : double := of_Z 1.

(** The integral part of a finite double: the fractional part is
    discarded (truncation toward zero).  Infinities and NaN have none. *)
Definition trunc (x : double) : option Z :=
  match x with
  | S754_zero _ => Some 0
  | S754_finite s m e =>
      let mag := match e with
                 | Zneg p => Z.shiftr (Zpos m) (Zpos p)
                 | _ => Z.shiftl (Zpos m) e
                 end in
      Some (if s then - mag else mag)
  | S754_infinity _ | S754_nan => None
  end.

End Double.

(** ** C strings *)

Definition NUL : ascii := Ascii.zero.

Definition code (c : ascii) : Z := Z.of_N (N_of_ascii c).

Definition is_nul (c : ascii) : bool := code c =? 0.

(** [strlen]: index of the first NUL of the buffer.  A buffer without a
    terminator makes [strlen] read past its end, which is undefined. *)
Fixpoint strlen (s : list ascii) : option nat :=
  match s with
  | [] => None
  | c :: t => if is_nul c then Some 0%nat else option_map S (strlen t)
  end.

(** The array a C string literal denotes: its characters and a NUL. *)
Definition cstring (s : string) : list ascii :=
  list_ascii_of_string s ++ [NUL].

(** ** strtol (ISO C 7.22.1.4), C locale, for a base from 2 to 36

    [strtol nptr base] is [strtol(nptr, NULL, base)]: white space is
    skipped, then an optional sign, then in base 16 an optional [0x], then
    the longest run of digits is read; the parse stops at the first
    character that does not fit, at the latest at the terminator.  A value
    outside [long] (64 bits here) is clamped. *)

Definition isspace (c : ascii) : bool :=
  let n := code c in (n =? 32) || ((9 <=? n) && (n <=? 13)).

Definition digit_value (c : ascii) : option Z :=
  let n := code c in
  if (48 <=? n) && (n <=? 57) then Some (n - 48)
  else if (97 <=? n) && (n <=? 122) then Some (n - 87)
  else if (65 <=? n) && (n <=? 90) then Some (n - 55)
  else None.

Definition digit_in (base : Z) (c : ascii) : option Z :=
  match digit_value c with
  | Some d => if d <? base then Some d else None
  | None => None
  end.

Fixpoint skip_space (s : list ascii) : list ascii :=
  match s with
  | c :: t => if isspace c then skip_space t else s
  | [] => []
  end.

(** Value of the longest prefix of digits, most significant first. *)
Fixpoint digits (base : Z) (acc : Z) (s : list ascii) : Z :=
  match s with
  | c :: t => match digit_in base c with
              | Some d => digits base (acc * base + d) t
              | None => acc
              end
  | [] => acc
  end.

Definition LONG_MAX : Z := 2 ^ 63 - 1.
Definition LONG_MIN : Z := - 2 ^ 63.

Definition is_x (c : ascii) : bool := (code c =? 120) || (code c =? 88).

(** An optional [0x] or [0X] is skipped in base 16 when a hex digit
    follows it; otherwise the subject sequence is the [0] alone. *)
Definition skip_prefix (base : Z) (s : list ascii) : list ascii :=
  match s with
  | z :: x :: d :: t =>
      if (base =? 16) && (code z =? 48) && is_x x
      then match digit_in base d with
           | Some _ => d :: t
           | None => s
           end
      else s
  | _ => s
  end.

Definition strtol (nptr : list ascii) (base : Z) : Z :=
  let s := skip_space nptr in
  let '(neg, s) := match s with
                   | c :: t => if code c =? 45 then (true, t)
                               else if code c =? 43 then (false, t)
                               else (false, s)
                   | [] => (false, s)
                   end in
  let v := digits base 0 (skip_prefix base s) in
  let v := if neg then - v else v in
  Z.max LONG_MIN (Z.min LONG_MAX v).

(** ** Colors *)

Record color_t : Type := mk_color {
  red : Double.double;
  green : Double.double;
  blue : Double.double;
  alpha : Double.double;
  colorpixel : Z
}.

Definition channels (c : color_t)
  : Double.double * Double.double * Double.double * Double.double :=
  (red c, green c, blue c, alpha c).

Definition obind {A B : Type} (o : option A) (f : A -> option B) : option B :=
  match o with
  | Some a => f a
  | None => None
  end.

Declare Scope option_scope.
Delimit Scope option_scope with opt.
Notation "x <- e ;; k" := (obind e (fun x => k))
  (at level 61, e at next level, right associativity) : option_scope.

Section HexToColor.

(** [get_colorpixel] is libi3's; it only fills the [colorpixel] field. *)
Variable get_colorpixel : list ascii -> Z.

(** Parses ["#rrggbb"] or ["#rrggbbaa"].  [color] is the array the pointer
    points into; a read of [color[i]] outside of it is undefined: [None]. *)
Definition draw_util_hex_to_color (color : list ascii) : option color_t :=
  (len <- strlen color ;;
   len_rgba <- strlen (cstring "#rrggbbaa") ;;
   a <- (if Nat.eqb len len_rgba
         then a0 <- nth_error color 7 ;;
              a1 <- nth_error color 8 ;;
              Some (a0, a1)
         else Some ("F"%char, "F"%char)) ;;
   let alpha_chars := [fst a; snd a] in
   c1 <- nth_error color 1 ;;
   c2 <- nth_error color 2 ;;
   c3 <- nth_error color 3 ;;
   c4 <- nth_error color 4 ;;
   c5 <- nth_error color 5 ;;
   c6 <- nth_error color 6 ;;
   let groups := ([c1; c2; NUL], [c3; c4; NUL], [c5; c6; NUL],
                  alpha_chars ++ [NUL]) in
   let '(g0, g1, g2, g3) := groups in
   Some {| red := Double.div (Double.of_Z (strtol g0 16)) (Double.of_Z 255);
           green := Double.div (Double.of_Z (strtol g1 16)) (Double.of_Z 255);
           blue := Double.div (Double.of_Z (strtol g2 16)) (Double.of_Z 255);
           alpha := Double.div (Double.of_Z (strtol g3 16)) (Double.of_Z 255);
           colorpixel := get_colorpixel color |})%opt.

End HexToColor.

(** ** Integer conversions of C *)

(** A double converted to a 16-bit integer type keeps its integral part;
    when that part is not representable the conversion is undefined
    (ISO C 6.3.1.4). *)
Definition double_to_int16 (x : Double.double) : option Z :=
  (z <- Double.trunc x ;;
   if (-32768 <=? z) && (z <=? 32767) then Some z else None)%opt.

Definition double_to_uint16 (x : Double.double) : option Z :=
  (z <- Double.trunc x ;;
   if (0 <=? z) && (z <=? 65535) then Some z else None)%opt.

(** An integer converted to an unsigned 16-bit type is reduced modulo 2^16;
    the signed residue is the one in [-2^15, 2^15). *)
Definition uint16_wrap (z : Z) : Z := z mod 65536.
Definition int16_wrap (z : Z) : Z := (z + 32768) mod 65536 - 32768.

(** ** The outside world: XCB, cairo and libi3 calls *)

Inductive cairo_operator_t : Type :=
| CAIRO_OPERATOR_CLEAR
| CAIRO_OPERATOR_SOURCE
| CAIRO_OPERATOR_OVER.

Record xcb_rectangle_t : Type := mk_rect {
  rect_x : Z;
  rect_y : Z;
  rect_width : Z;
  rect_height : Z
}.

(** Handles (X identifiers, cookies, pointers to library objects) are
    integers; the program never looks inside them. *)
Inductive event : Type :=
| xcb_generate_id (c : Z)
| xcb_create_gc_checked (c cid drawable value_mask : Z) (value_list : list Z)
| xcb_request_failed (cookie : Z) (err_msg : string)
| xcb_free_gc (c gc : Z)
| xcb_change_gc (c gc value_mask : Z) (value_list : list Z)
| xcb_poly_fill_rectangle (c drawable gc : Z) (rectangles : list xcb_rectangle_t)
| xcb_copy_area (c src_drawable dst_drawable gc : Z)
                (src_x src_y dst_x dst_y width height : Z)
| set_font_colors (gc foreground background : Z)
| draw_text (text drawable gc visual x y max_width : Z)
| cairo_xcb_surface_create (c drawable visual width height : Z)
| cairo_create (target : Z)
| cairo_surface_destroy (surface : Z)
| cairo_destroy (cr : Z)
| cairo_save (cr : Z)
| cairo_restore (cr : Z)
| cairo_set_operator (cr : Z) (op : cairo_operator_t)
| cairo_set_source_rgba (cr : Z) (r g b a : Double.double)
| cairo_set_source_surface (cr surface : Z) (x y : Double.double)
| cairo_rectangle (cr : Z) (x y w h : Double.double)
| cairo_fill (cr : Z)
| cairo_paint (cr : Z)
| CAIRO_SURFACE_FLUSH (surface : Z)
| cairo_surface_mark_dirty (surface : Z).

(** What a call hands back to the program.  The cookies of the unchecked
    requests, which the program drops, are left out. *)
Definition reply (e : event) : Type :=
  match e with
  | xcb_generate_id _ => Z
  | xcb_create_gc_checked _ _ _ _ _ => Z
  | xcb_request_failed _ _ => Z
  | cairo_xcb_surface_create _ _ _ _ _ => Z
  | cairo_create _ => Z
  | _ => unit
  end.

(** Programs: return, call the outside world and go on with its reply,
    leave the process with [exit], or run into undefined behaviour. *)
Inductive prog (A : Type) : Type :=
| Ret (a : A)
| Call (e : event) (k : reply e -> prog A)
| Exit (status : Z)
| Undef.

Arguments Ret {A} a.
Arguments Call {A} e k.
Arguments Exit {A} status.
Arguments Undef {A}.

Fixpoint bind {A B : Type} (p : prog A) (f : A -> prog B) : prog B :=
  match p with
  | Ret a => f a
  | Call e k => Call e (fun r => bind (k r) f)
  | Exit n => Exit n
  | Undef => Undef
  end.

Definition call (e : event) : prog (reply e) := Call e Ret.

(** A conversion that may be undefined. *)
Definition defined {A : Type} (o : option A) : prog A :=
  match o with
  | Some a => Ret a
  | None => Undef
  end.

Declare Scope prog_scope.
Delimit Scope prog_scope with prog.
Bind Scope prog_scope with prog.
Notation "x <- e ;; k" := (bind e (fun x => k))
  (at level 61, e at next level, right associativity) : prog_scope.
Notation "e ;; k" := (bind e (fun _ => k))
  (at level 61, right associativity) : prog_scope.

Inductive outcome (A W : Type) : Type :=
| Returned (a : A) (w : W)
| Exited (status : Z) (w : W)
| Undefined.

Arguments Returned {A W} a w.
Arguments Exited {A W} status w.
Arguments Undefined {A W}.

(** The outside world answers every call and moves to a new state. *)
Definition handler (W : Type) : Type := forall e : event, W -> reply e * W.

Fixpoint run {A W : Type} (h : handler W) (p : prog A) (w : W) : outcome A W :=
  match p with
  | Ret a => Returned a w
  | Call e k => let (r, w') := h e w in run h (k r) w'
  | Exit n => Exited n w
  | Undef => Undefined
  end.

(** ** Surfaces *)

Record surface_t : Type := mk_surface {
  surface_id : Z;       (* id: the drawable *)
  surface_gc : Z;       (* gc: the graphics context *)
  surface_width : Z;
  surface_height : Z;
  surface_surface : Z;  (* surface: the cairo surface (cairo build only) *)
  surface_cr : Z        (* cr: the cairo context (cairo build only) *)
}.

Definition EXIT_FAILURE : Z := 1.
Definition XCB_GC_FOREGROUND : Z := 4.
Definition XCB_GC_BACKGROUND : Z := 8.

Section DrawUtil.

(** The build-time switch between the cairo and the XCB code paths. *)
Variable I3BAR_CAIRO : bool.

(** Process-wide handles, initialised elsewhere. *)
Variable xcb_connection : Z.
Variable visual_type : Z.

Definition gc_error_message : string := "Could not create graphical context".

Definition draw_util_surface_init (surface : surface_t) (drawable : Z)
    (width height : Z) : prog surface_t :=
  let surface :=
    mk_surface drawable (surface_gc surface) width height
               (surface_surface surface) (surface_cr surface) in
  (gc <- call (xcb_generate_id xcb_connection) ;;
   let surface :=
     mk_surface (surface_id surface) gc (surface_width surface)
                (surface_height surface) (surface_surface surface)
                (surface_cr surface) in
   gc_cookie <- call (xcb_create_gc_checked xcb_connection (surface_gc surface)
                                            (surface_id surface) 0 []) ;;
   failed <- call (xcb_request_failed gc_cookie gc_error_message) ;;
   if negb (failed =? 0) then Exit EXIT_FAILURE
   else if I3BAR_CAIRO then
     s <- call (cairo_xcb_surface_create xcb_connection (surface_id surface)
                                         visual_type width height) ;;
     cr <- call (cairo_create s) ;;
     Ret (mk_surface (surface_id surface) (surface_gc surface)
                     (surface_width surface) (surface_height surface) s cr)
   else Ret surface)%prog.

Definition draw_util_surface_free (surface : surface_t) : prog unit :=
  (call (xcb_free_gc xcb_connection (surface_gc surface)) ;;
   if I3BAR_CAIRO then
     call (cairo_surface_destroy (surface_surface surface)) ;;
     call (cairo_destroy (surface_cr surface))
   else Ret tt)%prog.

Definition draw_util_set_source_color (surface : surface_t) (color : color_t)
    : prog unit :=
  if I3BAR_CAIRO then
    call (cairo_set_source_rgba (surface_cr surface) (red color) (green color)
                                (blue color) (alpha color))
  else
    let colorpixel := colorpixel color in
    call (xcb_change_gc xcb_connection (surface_gc surface)
                        (Z.lor XCB_GC_FOREGROUND XCB_GC_BACKGROUND)
                        [colorpixel; colorpixel]).

Definition draw_util_text (text : Z) (surface : surface_t)
    (fg_color bg_color : color_t) (x y max_width : Z) : prog unit :=
  ((if I3BAR_CAIRO then call (CAIRO_SURFACE_FLUSH (surface_surface surface))
    else Ret tt) ;;
   call (set_font_colors (surface_gc surface) (colorpixel fg_color)
                         (colorpixel bg_color)) ;;
   call (draw_text text (surface_id surface) (surface_gc surface) visual_type
                   x y max_width) ;;
   if I3BAR_CAIRO then call (cairo_surface_mark_dirty (surface_surface surface))
   else Ret tt)%prog.

Definition draw_util_rectangle (surface : surface_t) (color : color_t)
    (x y w h : Double.double) : prog unit :=
  if I3BAR_CAIRO then
    (call (cairo_save (surface_cr surface)) ;;
     call (cairo_set_operator (surface_cr surface) CAIRO_OPERATOR_SOURCE) ;;
     draw_util_set_source_color surface color ;;
     call (cairo_rectangle (surface_cr surface) x y w h) ;;
     call (cairo_fill (surface_cr surface)) ;;
     call (CAIRO_SURFACE_FLUSH (surface_surface surface)) ;;
     call (cairo_restore (surface_cr surface)))%prog
  else
    (draw_util_set_source_color surface color ;;
     rx <- defined (double_to_int16 x) ;;
     ry <- defined (double_to_int16 y) ;;
     rw <- defined (double_to_uint16 w) ;;
     rh <- defined (double_to_uint16 h) ;;
     let rect := mk_rect rx ry rw rh in
     call (xcb_poly_fill_rectangle xcb_connection (surface_id surface)
                                   (surface_gc surface) [rect]))%prog.

Definition draw_util_clear_surface (surface : surface_t) (color : color_t)
    : prog unit :=
  if I3BAR_CAIRO then
    (call (cairo_save (surface_cr surface)) ;;
     call (cairo_set_operator (surface_cr surface) CAIRO_OPERATOR_SOURCE) ;;
     draw_util_set_source_color surface color ;;
     call (cairo_paint (surface_cr surface)) ;;
     call (CAIRO_SURFACE_FLUSH (surface_surface surface)) ;;
     call (cairo_restore (surface_cr surface)))%prog
  else
    (draw_util_set_source_color surface color ;;
     let rect := mk_rect 0 0 (uint16_wrap (surface_width surface))
                         (uint16_wrap (surface_height surface)) in
     call (xcb_poly_fill_rectangle xcb_connection (surface_id surface)
                                   (surface_gc surface) [rect]))%prog.

Definition draw_util_copy_surface (src dest : surface_t)
    (src_x src_y dest_x dest_y width height : Double.double) : prog unit :=
  if I3BAR_CAIRO then
    (call (cairo_save (surface_cr dest)) ;;
     call (cairo_set_operator (surface_cr dest) CAIRO_OPERATOR_SOURCE) ;;
     call (cairo_set_source_surface (surface_cr dest) (surface_surface src)
                                    (Double.sub dest_x src_x) src_y) ;;
     call (cairo_rectangle (surface_cr dest) dest_x dest_y width height) ;;
     call (cairo_fill (surface_cr dest)) ;;
     call (CAIRO_SURFACE_FLUSH (surface_surface src)) ;;
     call (CAIRO_SURFACE_FLUSH (surface_surface dest)) ;;
     call (cairo_restore (surface_cr dest)))%prog
  else
    (sx <- defined (double_to_int16 src_x) ;;
     sy <- defined (double_to_int16 src_y) ;;
     dx <- defined (double_to_int16 dest_x) ;;
     dy <- defined (double_to_int16 dest_y) ;;
     w <- defined (double_to_uint16 width) ;;
     h <- defined (double_to_uint16 height) ;;
     call (xcb_copy_area xcb_connection (surface_id src) (surface_id dest)
                         (surface_gc dest) sx sy dx dy w h))%prog.

End DrawUtil.

(** * Definitions used to state the properties *)

(** ** Two-character groups and channels *)

Definition group (c1 c2 : ascii) : list ascii := [c1; c2; NUL].

Definition hex_pair (c1 c2 : ascii) : option Z :=
  match digit_in 16 c1, digit_in 16 c2 with
  | Some h, Some l => Some (16 * h + l)
  | _, _ => None
  end.

Definition is_minus (c : ascii) : bool := code c =? 45.

(** The characters of the alpha group for a string of length [n]. *)
Definition alpha_group (color : list ascii) (n : nat) : option (ascii * ascii) :=
  if Nat.eqb n 9
  then match nth_error color 7, nth_error color 8 with
       | Some a0, Some a1 => Some (a0, a1)
       | _, _ => None
       end
  else Some ("F"%char, "F"%char).

Definition channel (n : Z) : Double.double :=
  Double.div (Double.of_Z n) (Double.of_Z 255).

Definition channel_min : Double.double := channel (-15).

Definition between (lo hi x : Double.double) : bool :=
  Double.leb lo x && Double.leb x hi.

(** A stand-in for libi3's pixel lookup where a closed example needs one. *)
Definition no_colorpixel (color : list ascii) : Z := 0.

(** ** Checks by enumeration *)

Definition all_ascii : list ascii := map ascii_of_nat (seq 0 256).

Definition forall_ascii (P : ascii -> bool) : bool := forallb P all_ascii.

Definition group_ok (c1 c2 : ascii) : bool :=
  let v := strtol (group c1 c2) 16 in
  (-15 <=? v) && (v <=? 255)
  && (is_minus c1 || (0 <=? v))
  && match hex_pair c1 c2 with
     | Some n => v =? n
     | None => true
     end.

Definition Z_range (lo : Z) (len : nat) : list Z :=
  map (fun i => lo + Z.of_nat i) (seq 0 len).

(** ** The verdict of the server on a graphics context *)

Section InitWorld.

Variable xcb_connection : Z.
Context {W : Type} (h : handler W).

(** The server's verdict on the graphics context requested for a
    drawable: a fresh id is generated, the creation is requested with it,
    and the request is checked. *)
Definition gc_request_failed (w : W) (drawable : Z) : bool :=
  let (gc, w1) := h (xcb_generate_id xcb_connection) w in
  let (cookie, w2) :=
    h (xcb_create_gc_checked xcb_connection gc drawable 0 []) w1 in
  let (failed, _) := h (xcb_request_failed cookie gc_error_message) w2 in
  negb (failed =? 0).

End InitWorld.

(** ** A small X server, and surfaces for closed examples *)

(** A small X server for closed examples: identifiers are handed out in
    order, drawable 0 ([XCB_NONE]) does not exist, and a checked request on
    it is answered with [BadDrawable]. *)
Record xserver : Type := mk_xserver {
  next_id : Z;
  sequence : Z;
  errors : list (Z * Z)
}.

Definition BadDrawable : Z := 9.

Fixpoint lookup_error (cookie : Z) (l : list (Z * Z)) : Z :=
  match l with
  | [] => 0
  | (c, err) :: t => if c =? cookie then err else lookup_error cookie t
  end.

Definition xserver_handler : handler xserver :=
  fun e =>
    match e return xserver -> reply e * xserver with
    | xcb_generate_id _ =>
        fun w => (next_id w, mk_xserver (next_id w + 1) (sequence w) (errors w))
    | xcb_create_gc_checked _ _ drawable _ _ =>
        fun w =>
          let cookie := sequence w in
          (cookie,
           mk_xserver (next_id w) (sequence w + 1)
                      (if drawable =? 0 then (cookie, BadDrawable) :: errors w
                       else errors w))
    | xcb_request_failed cookie _ => fun w => (lookup_error cookie (errors w), w)
    | cairo_xcb_surface_create _ _ _ _ _ =>
        fun w => (next_id w, mk_xserver (next_id w + 1) (sequence w) (errors w))
    | cairo_create _ =>
        fun w => (next_id w, mk_xserver (next_id w + 1) (sequence w) (errors w))
    | _ => fun w => (tt, w)
    end.

Definition xserver_start : xserver := mk_xserver 4194304 1 [].

Definition blank_surface : surface_t := mk_surface 0 0 0 0 0 0.

Definition bar_surface : surface_t := mk_surface 31457285 31457286 1920 24 0 0.
Definition buffer_surface : surface_t := mk_surface 31457287 31457288 1920 24 0 0.

(** ** Ranges of the 16-bit types *)

Definition in_int16 (z : Z) : Prop := -32768 <= z <= 32767.
Definition in_uint16 (z : Z) : Prop := 0 <= z <= 65535.

(** ** Where a copy takes its pixels from *)

Definition default_reply (e : event) : reply e :=
  match e return reply e with
  | xcb_generate_id _ => 0
  | xcb_create_gc_checked _ _ _ _ _ => 0
  | xcb_request_failed _ _ => 0
  | cairo_xcb_surface_create _ _ _ _ _ => 0
  | cairo_create _ => 0
  | _ => tt
  end.

(** The calls a program issues when every call is answered by default. *)
Fixpoint trace {A : Type} (p : prog A) : list event :=
  match p with
  | Call e k => e :: trace (k (default_reply e))
  | _ => []
  end.

Definition inside (x y w h X Y : Z) : bool :=
  (x <=? X) && (X <? x + w) && (y <=? Y) && (Y <? y + h).

Record reading : Type := mk_reading {
  source_origin : option (Z * Z);
  path : option (Z * Z * Z * Z);
  taken_from : option (Z * Z)
}.

(** The source pixel that ends up at pixel [(X, Y)] of the destination.
    [xcb_copy_area] copies the rectangle at [(src_x, src_y)] onto the one at
    [(dst_x, dst_y)], offset by offset.  [cairo_set_source_surface] puts the
    origin of the source surface at the user-space point [(x, y)], and
    [cairo_fill] paints the rectangle of the path with that source. *)
Definition read_call (X Y : Z) (r : reading) (e : event) : reading :=
  match e with
  | xcb_copy_area _ _ _ _ sx sy dx dy w h =>
      if inside dx dy w h X Y
      then mk_reading (source_origin r) (path r)
                      (Some (sx + (X - dx), sy + (Y - dy)))
      else r
  | cairo_set_source_surface _ _ x y =>
      match Double.trunc x, Double.trunc y with
      | Some ox, Some oy => mk_reading (Some (ox, oy)) (path r) (taken_from r)
      | _, _ => r
      end
  | cairo_rectangle _ x y w h =>
      match Double.trunc x, Double.trunc y, Double.trunc w, Double.trunc h with
      | Some rx, Some ry, Some rw, Some rh =>
          mk_reading (source_origin r) (Some (rx, ry, rw, rh)) (taken_from r)
      | _, _, _, _ => r
      end
  | cairo_fill _ =>
      match source_origin r, path r with
      | Some (ox, oy), Some (rx, ry, rw, rh) =>
          if inside rx ry rw rh X Y
          then mk_reading (source_origin r) None (Some (X - ox, Y - oy))
          else mk_reading (source_origin r) None (taken_from r)
      | _, _ => mk_reading (source_origin r) None (taken_from r)
      end
  | _ => r
  end.

Definition copy_source (t : list event) (X Y : Z) : option (Z * Z) :=
  taken_from (fold_left (read_call X Y) t (mk_reading None None None)).

(** * Definitions for further properties *)

(** ** Characters and groups *)

(** C's [tolower] in the C locale. *)
Definition tolower (c : ascii) : ascii :=
  let n := code c in
  if (65 <=? n) && (n <=? 90) then ascii_of_N (Z.to_N (n + 32)) else c.

Definition digit_or_zero (c : ascii) : Z :=
  match digit_in 16 c with
  | Some d => d
  | None => 0
  end.

(** What a two-character group stands for, case by case. *)
Definition group_value (c1 c2 : ascii) : Z :=
  if isspace c1 then digit_or_zero c2
  else if code c1 =? 45 then - digit_or_zero c2
  else if code c1 =? 43 then digit_or_zero c2
  else match digit_in 16 c1 with
       | Some h => match digit_in 16 c2 with
                   | Some l => 16 * h + l
                   | None => h
                   end
       | None => 0
       end.

Definition no_nul (s : list ascii) : bool :=
  forallb (fun c => negb (is_nul c)) s.

(** Every integer of [k] bits above the prefix [b]. *)
Fixpoint forall_bits (k : nat) (b : Z) (P : Z -> bool) : bool :=
  match k with
  | O => P b
  | S k' => forall_bits k' (2 * b) P && forall_bits k' (2 * b + 1) P
  end.

(** ** Calls and runs *)

Definition is_cairo (e : event) : bool :=
  match e with
  | cairo_xcb_surface_create _ _ _ _ _ | cairo_create _
  | cairo_surface_destroy _ | cairo_destroy _
  | cairo_save _ | cairo_restore _ | cairo_set_operator _ _
  | cairo_set_source_rgba _ _ _ _ _ | cairo_set_source_surface _ _ _ _
  | cairo_rectangle _ _ _ _ _ | cairo_fill _ | cairo_paint _
  | CAIRO_SURFACE_FLUSH _ | cairo_surface_mark_dirty _ => true
  | _ => false
  end.

(** The calls of a trace that go to XCB or libi3. *)
Definition xcb_calls (t : list event) : list event :=
  filter (fun e => negb (is_cairo e)) t.

(** A call together with the answer it got. *)
Definition answered : Type := {e : event & reply e}.

Definition answer (e : event) (r : reply e) : answered := existT reply e r.

(** The same outside world, keeping a record of calls and answers. *)
Definition logged {W : Type} (h : handler W) : handler (list answered * W) :=
  fun e lw =>
    let (r, w') := h e (snd lw) in (r, (fst lw ++ [answer e r], w')).

(** A program that returns, whatever the outside world answers. *)
Definition always_returns {A : Type} (p : prog A) : Prop :=
  forall (W : Type) (h : handler W) (w : W),
    exists a w', run h p w = Returned a w'.

(** ** The graphics state of a cairo context

    [cairo_save] pushes the state of the context, [cairo_restore] pops it;
    the operator and the source belong to the state. *)

Inductive cairo_source : Type :=
| source_rgba (r g b a : Double.double)
| source_surface (surface : Z) (x y : Double.double).

Record cairo_gstate : Type := mk_gstate {
  gs_operator : cairo_operator_t;
  gs_source : cairo_source;
  gs_saved : list (cairo_operator_t * cairo_source)
}.

Definition cairo_call (cr : Z) (g : cairo_gstate) (e : event) : cairo_gstate :=
  match e with
  | cairo_save c =>
      if c =? cr
      then mk_gstate (gs_operator g) (gs_source g)
                     ((gs_operator g, gs_source g) :: gs_saved g)
      else g
  | cairo_restore c =>
      if c =? cr
      then match gs_saved g with
           | (op, src) :: saved => mk_gstate op src saved
           | [] => g
           end
      else g
  | cairo_set_operator c op =>
      if c =? cr then mk_gstate op (gs_source g) (gs_saved g) else g
  | cairo_set_source_rgba c r gr b a =>
      if c =? cr
      then mk_gstate (gs_operator g) (source_rgba r gr b a) (gs_saved g)
      else g
  | cairo_set_source_surface c s x y =>
      if c =? cr
      then mk_gstate (gs_operator g) (source_surface s x y) (gs_saved g)
      else g
  | _ => g
  end.

Definition cairo_state_after (cr : Z) (t : list event) (g : cairo_gstate)
    : cairo_gstate :=
  fold_left (cairo_call cr) t g.

(** The operator and source in force at each [cairo_fill] and [cairo_paint]
    of the context. *)
Fixpoint drawn_with (cr : Z) (t : list event) (g : cairo_gstate)
    : list (cairo_operator_t * cairo_source) :=
  match t with
  | [] => []
  | e :: t' =>
      let rest := drawn_with cr t' (cairo_call cr g e) in
      match e with
      | cairo_fill c | cairo_paint c =>
          if c =? cr then (gs_operator g, gs_source g) :: rest else rest
      | _ => rest
      end
  end.

(** ** Cairo and XCB drawing on one surface

    Cairo drawing is pending until the surface is flushed, and drawing that
    goes around cairo leaves cairo's view stale until the surface is marked
    dirty.  [None]: something was drawn around cairo while cairo drawing was
    pending, or by cairo while its view was stale. *)

Record sync : Type := mk_sync {
  pending : bool;
  stale : bool
}.

Definition in_sync : option sync := Some (mk_sync false false).

Definition sync_call (s : surface_t) (st : option sync) (e : event)
    : option sync :=
  match st with
  | None => None
  | Some (mk_sync p d) =>
      match e with
      | cairo_fill cr | cairo_paint cr =>
          if cr =? surface_cr s
          then if d then None else Some (mk_sync true d)
          else st
      | CAIRO_SURFACE_FLUSH sf =>
          if sf =? surface_surface s then Some (mk_sync false d) else st
      | cairo_surface_mark_dirty sf =>
          if sf =? surface_surface s then Some (mk_sync p false) else st
      | draw_text _ drawable _ _ _ _ _ =>
          if drawable =? surface_id s
          then if p then None else Some (mk_sync p true)
          else st
      | _ => st
      end
  end.

Definition sync_after (s : surface_t) (t : list event) (st : option sync)
    : option sync :=
  fold_left (sync_call s) t st.

(** One use of the drawing functions on a surface. *)
Inductive drawing : Type :=
| Rectangle (color : color_t) (x y w h : Double.double)
| Clear (color : color_t)
| Text (text : Z) (fg_color bg_color : color_t) (x y max_width : Z)
| CopyFrom (src : surface_t) (src_x src_y dest_x dest_y width height : Double.double).

Definition draw (I3BAR_CAIRO : bool) (xcb_connection visual_type : Z)
    (s : surface_t) (d : drawing) : prog unit :=
  match d with
  | Rectangle color x y w h =>
      draw_util_rectangle I3BAR_CAIRO xcb_connection s color x y w h
  | Clear color => draw_util_clear_surface I3BAR_CAIRO xcb_connection s color
  | Text text fg bg x y max_width =>
      draw_util_text I3BAR_CAIRO visual_type text s fg bg x y max_width
  | CopyFrom src sx sy dx dy w h =>
      draw_util_copy_surface I3BAR_CAIRO xcb_connection src s sx sy dx dy w h
  end.

(** What a program returns when every call is answered by default. *)
Fixpoint default_result {A : Type} (p : prog A) : option A :=
  match p with
  | Ret a => Some a
  | Call e k => default_result (k (default_reply e))
  | _ => None
  end.

(** Several uses, one after the other. *)
Fixpoint draw_all (I3BAR_CAIRO : bool) (xcb_connection visual_type : Z)
    (s : surface_t) (l : list drawing) : prog unit :=
  match l with
  | [] => Ret tt
  | d :: l' =>
      (draw I3BAR_CAIRO xcb_connection visual_type s d ;;
       draw_all I3BAR_CAIRO xcb_connection visual_type s l')%prog
  end.

(** The fields of a surface that exist in both builds. *)
Definition xcb_fields (s : surface_t) : Z * Z * Z * Z :=
  (surface_id s, surface_gc s, surface_width s, surface_height s).

(** Two outcomes that differ at most in the cairo fields of the surface. *)
Definition same_xcb_outcome {W : Type} (o1 o2 : outcome surface_t W) : Prop :=
  match o1, o2 with
  | Returned s1 w1, Returned s2 w2 => xcb_fields s1 = xcb_fields s2 /\ w1 = w2
  | Exited n1 w1, Exited n2 w2 => n1 = n2 /\ w1 = w2
  | Undefined, Undefined => True
  | _, _ => False
  end.

(** ** What the calls leave in a pixel of a surface

    The last call that writes a pixel decides what it holds.  A fill of
    the X server writes the foreground of the graphics context (the
    contexts of this file keep the default function and plane mask); a copy
    writes the pixel at the same offset of the source rectangle.  Cairo
    writes the source of the context under its operator: into the
    rectangle of the path for [cairo_fill], everywhere for [cairo_paint]. *)

Inductive pixel : Type :=
| Kept                                   (* what was there before *)
| Copied (drawable x y : Z)              (* that pixel of a drawable *)
| Filled (foreground : option Z)         (* the foreground of the context *)
| Drawn (source : cairo_source)          (* the cairo source, replacing *)
| Transparent
| Over (source : cairo_source) (under : pixel).

Definition draw_over (op : cairo_operator_t) (source : cairo_source)
    (under : pixel) : pixel :=
  match op with
  | CAIRO_OPERATOR_SOURCE => Drawn source
  | CAIRO_OPERATOR_CLEAR => Transparent
  | CAIRO_OPERATOR_OVER => Over source under
  end.

Record canvas : Type := mk_canvas {
  cv_gstate : cairo_gstate;
  cv_path : option (Z * Z * Z * Z);
  cv_foreground : list (Z * Z);
  cv_pixel : pixel
}.

Fixpoint foreground_of (gc : Z) (l : list (Z * Z)) : option Z :=
  match l with
  | [] => None
  | (g, fg) :: t => if g =? gc then Some fg else foreground_of gc t
  end.

(** The foreground in the value list of [xcb_change_gc]: values come in the
    order of the bits of the mask, function and plane mask first. *)
Definition changed_foreground (value_mask : Z) (value_list : list Z)
    : option Z :=
  if Z.testbit value_mask 2
  then nth_error value_list
         ((if Z.testbit value_mask 0 then 1 else 0)
          + (if Z.testbit value_mask 1 then 1 else 0))%nat
  else None.

Definition in_rectangle (X Y : Z) (r : xcb_rectangle_t) : bool :=
  inside (rect_x r) (rect_y r) (rect_width r) (rect_height r) X Y.

(** One call, seen from pixel [(X, Y)] of the surface [s]. *)
Definition render (s : surface_t) (X Y : Z) (c : canvas) (e : event)
    : canvas :=
  mk_canvas
    (cairo_call (surface_cr s) (cv_gstate c) e)
    (match e with
     | cairo_rectangle cr x y w h =>
         if cr =? surface_cr s
         then match Double.trunc x, Double.trunc y,
                    Double.trunc w, Double.trunc h with
              | Some rx, Some ry, Some rw, Some rh => Some (rx, ry, rw, rh)
              | _, _, _, _ => cv_path c
              end
         else cv_path c
     | cairo_fill cr => if cr =? surface_cr s then None else cv_path c
     | _ => cv_path c
     end)
    (match e with
     | xcb_change_gc _ gc value_mask value_list =>
         match changed_foreground value_mask value_list with
         | Some fg => (gc, fg) :: cv_foreground c
         | None => cv_foreground c
         end
     | _ => cv_foreground c
     end)
    (match e with
     | xcb_poly_fill_rectangle _ drawable gc rectangles =>
         if (drawable =? surface_id s) && existsb (in_rectangle X Y) rectangles
         then Filled (foreground_of gc (cv_foreground c))
         else cv_pixel c
     | xcb_copy_area _ src_drawable dst_drawable _ sx sy dx dy w h =>
         if (dst_drawable =? surface_id s) && inside dx dy w h X Y
         then Copied src_drawable (sx + (X - dx)) (sy + (Y - dy))
         else cv_pixel c
     | cairo_fill cr =>
         if cr =? surface_cr s
         then match cv_path c with
              | Some (rx, ry, rw, rh) =>
                  if inside rx ry rw rh X Y
                  then draw_over (gs_operator (cv_gstate c))
                                 (gs_source (cv_gstate c)) (cv_pixel c)
                  else cv_pixel c
              | None => cv_pixel c
              end
         else cv_pixel c
     | cairo_paint cr =>
         if cr =? surface_cr s
         then draw_over (gs_operator (cv_gstate c))
                        (gs_source (cv_gstate c)) (cv_pixel c)
         else cv_pixel c
     | _ => cv_pixel c
     end).

Definition pixel_after (s : surface_t) (X Y : Z) (t : list event)
    (c : canvas) : pixel :=
  cv_pixel (fold_left (render s X Y) t c).

(** * Lemmas on strings, numbers and programs *)

(** ** Reads of the buffer *)

Lemma strlen_lt (s : list ascii) (n : nat) :
  strlen s = Some n -> (n < List.length s)%nat.
Proof.
  revert n; induction s as [|c t IH]; intros n; simpl.
  - discriminate.
  - destruct (is_nul c).
    + intros [= <-]. lia.
    + destruct (strlen t) as [m|]; simpl; [|discriminate].
      intros [= <-]. specialize (IH m eq_refl). lia.
Qed.

Lemma read_in_bounds (s : list ascii) (i : nat) :
  (i < List.length s)%nat -> exists c, nth_error s i = Some c.
Proof.
  intros H. destruct (nth_error s i) as [c|] eqn:E.
  - now exists c.
  - apply nth_error_None in E. lia.
Qed.

Lemma read_some_lt (s : list ascii) (i : nat) (c : ascii) :
  nth_error s i = Some c -> (i < List.length s)%nat.
Proof.
  intros H. apply nth_error_Some. congruence.
Qed.

(** ** [strtol] *)

Example strtol_samples :
  strtol (cstring "ff") 16 = 255 /\
  strtol (cstring "-f") 16 = -15 /\
  strtol (cstring "0x1A") 16 = 26 /\
  strtol (cstring "  +7fz") 16 = 127 /\
  strtol (cstring "0x") 16 = 0 /\
  strtol (cstring "fg") 16 = 15 /\
  strtol (cstring "zz") 16 = 0 /\
  strtol (cstring "- 1") 16 = 0 /\
  strtol (cstring "-1000") 10 = -1000 /\
  strtol (cstring "ffffffffffffffffff") 16 = LONG_MAX.
Proof. repeat split; reflexivity. Qed.

Lemma digit_in_range (base : Z) (c : ascii) (d : Z) :
  digit_in base c = Some d -> 0 <= d < base.
Proof.
  unfold digit_in, digit_value.
  destruct ((48 <=? code c) && (code c <=? 57)) eqn:E1;
    [|destruct ((97 <=? code c) && (code c <=? 122)) eqn:E2;
      [|destruct ((65 <=? code c) && (code c <=? 90)) eqn:E3;
        [|discriminate]]];
    match goal with
    | |- (if ?v <? base then _ else _) = _ -> _ =>
        destruct (Z.ltb_spec v base); [|discriminate]
    end;
    intros [= <-]; rewrite andb_true_iff in *; lia.
Qed.

(** The digits read extend the accumulator by one place each. *)
Lemma digits_range (base : Z) (s : list ascii) (acc : Z) :
  2 <= base -> 0 <= acc ->
  acc <= digits base acc s < (acc + 1) * base ^ Z.of_nat (List.length s).
Proof.
  intros Hb. revert acc. induction s as [|c s IH]; intros acc Hacc.
  - simpl. lia.
  - cbn [digits List.length]. rewrite Nat2Z.inj_succ, Z.pow_succ_r by lia.
    assert (Hp : 0 < base ^ Z.of_nat (List.length s))
      by (apply Z.pow_pos_nonneg; lia).
    destruct (digit_in base c) as [d|] eqn:E.
    + apply digit_in_range in E.
      specialize (IH (acc * base + d) ltac:(nia)). nia.
    + nia.
Qed.

Lemma digits_to_NUL (base : Z) (s t t' : list ascii) (acc : Z) :
  digits base acc (s ++ NUL :: t) = digits base acc (s ++ NUL :: t').
Proof.
  revert acc. induction s as [|c s IH]; intros acc; simpl.
  - reflexivity.
  - destruct (digit_in base c); [apply IH | reflexivity].
Qed.

Lemma skip_prefix_to_NUL (base : Z) (s : list ascii) :
  exists s', forall t, skip_prefix base (s ++ NUL :: t) = s' ++ NUL :: t.
Proof.
  destruct s as [|z [|x [|d s]]].
  - exists []. intros t. simpl. destruct t as [|x [|d t]]; try reflexivity.
    now rewrite andb_false_r.
  - exists [z]. intros t. simpl. destruct t as [|d t]; try reflexivity.
    now rewrite andb_false_r.
  - exists [z; x]. intros t. simpl.
    now destruct ((base =? 16) && (code z =? 48) && is_x x).
  - simpl. destruct ((base =? 16) && (code z =? 48) && is_x x).
    + destruct (digit_in base d).
      * exists (d :: s). reflexivity.
      * exists (z :: x :: d :: s). reflexivity.
    + exists (z :: x :: d :: s). reflexivity.
Qed.

Lemma skip_space_to_NUL (s : list ascii) :
  exists s', forall t, skip_space (s ++ NUL :: t) = s' ++ NUL :: t.
Proof.
  induction s as [|c s [s' IH]].
  - exists []. reflexivity.
  - simpl. destruct (isspace c).
    + exists s'. exact IH.
    + exists (c :: s). reflexivity.
Qed.

(** [strtol] never looks behind the terminator of its string: a group
    [{c1, c2, '\0'}] is read the same wherever it lies in memory. *)
Lemma strtol_reads_to_NUL (base : Z) (s t t' : list ascii) :
  strtol (s ++ NUL :: t) base = strtol (s ++ NUL :: t') base.
Proof.
  unfold strtol. destruct (skip_space_to_NUL s) as [s1 H1]. rewrite !H1.
  assert (E : forall s2 u u',
             digits base 0 (skip_prefix base (s2 ++ NUL :: u)) =
             digits base 0 (skip_prefix base (s2 ++ NUL :: u'))).
  { intros s2 u u'. destruct (skip_prefix_to_NUL base s2) as [s3 H3].
    rewrite !H3. apply digits_to_NUL. }
  pose proof (E [] t t') as E0. pose proof (E s1 t t') as E1.
  destruct s1 as [|c s1]; cbn [app] in *.
  - change (code NUL =? 45) with false. change (code NUL =? 43) with false.
    cbv beta iota zeta. now rewrite E0.
  - pose proof (E s1 t t') as E2.
    destruct (code c =? 45); [cbv beta iota zeta; now rewrite E2|].
    destruct (code c =? 43); [cbv beta iota zeta; now rewrite E2|].
    cbv beta iota zeta. now rewrite E1.
Qed.

(** ** C doubles *)

Example double_samples :
  Double.trunc (Double.div (Double.of_Z 201) (Double.of_Z 2)) = Some 100 /\
  Double.trunc (Double.div (Double.of_Z (-7)) (Double.of_Z 2)) = Some (-3) /\
  Double.trunc (Double.div (Double.of_Z 1) (Double.of_Z 0)) = None /\
  double_to_int16 (Double.of_Z 32767) = Some 32767 /\
  double_to_int16 (Double.of_Z 32768) = None /\
  double_to_uint16 (Double.of_Z 65535) = Some 65535 /\
  double_to_uint16 (Double.of_Z (-1)) = None /\
  double_to_uint16 (Double.div (Double.of_Z (-1)) (Double.of_Z 2)) = Some 0.
Proof. repeat split; reflexivity. Qed.

(** ** Programs *)

Lemma run_bind {A B W : Type} (h : handler W) (p : prog A) (f : A -> prog B)
    (w : W) :
  run h (bind p f) w =
  match run h p w with
  | Returned a w' => run h (f a) w'
  | Exited n w' => Exited n w'
  | Undefined => Undefined
  end.
Proof.
  revert w. induction p as [a|e k IH|n|]; intros w; simpl; try reflexivity.
  destruct (h e w) as [r w']. apply IH.
Qed.

(** ** Every character, for checks by enumeration *)

Lemma all_ascii_complete (c : ascii) : In c all_ascii.
Proof.
  unfold all_ascii. rewrite <- (ascii_nat_embedding c).
  apply in_map, in_seq. pose proof (nat_ascii_bounded c). lia.
Qed.

Lemma forall_ascii_spec (P : ascii -> bool) :
  forall_ascii P = true -> forall c, P c = true.
Proof.
  unfold forall_ascii. rewrite forallb_forall.
  intros H c. apply H, all_ascii_complete.
Qed.

(** ** A two-character group read by [strtol] in base 16 *)

Lemma group_ok_all (c1 c2 : ascii) : group_ok c1 c2 = true.
Proof.
  revert c2. revert c1.
  assert (H : forall_ascii (fun c1 => forall_ascii (group_ok c1)) = true)
    by (vm_compute; reflexivity).
  intros c1. apply forall_ascii_spec.
  exact (forall_ascii_spec _ H c1).
Qed.

Lemma group_range (c1 c2 : ascii) :
  -15 <= strtol (group c1 c2) 16 <= 255.
Proof.
  pose proof (group_ok_all c1 c2) as H. unfold group_ok in H.
  rewrite !andb_true_iff in H. lia.
Qed.

Lemma group_nonneg (c1 c2 : ascii) :
  is_minus c1 = false -> 0 <= strtol (group c1 c2) 16 <= 255.
Proof.
  intros Hm. pose proof (group_ok_all c1 c2) as H. unfold group_ok in H.
  rewrite Hm in H. rewrite !andb_true_iff in H. simpl in H. lia.
Qed.

Lemma group_hex (c1 c2 : ascii) (n : Z) :
  hex_pair c1 c2 = Some n -> strtol (group c1 c2) 16 = n.
Proof.
  intros Hp. pose proof (group_ok_all c1 c2) as H. unfold group_ok in H.
  rewrite Hp in H. rewrite !andb_true_iff in H. lia.
Qed.

Lemma group_FF : strtol (group "F" "F") 16 = 255.
Proof. reflexivity. Qed.

(** ** A channel: a [long] divided by [255.0] *)

Lemma Z_range_complete (lo : Z) (len : nat) (n : Z) :
  lo <= n < lo + Z.of_nat len -> In n (Z_range lo len).
Proof.
  intros H. unfold Z_range. apply in_map_iff.
  exists (Z.to_nat (n - lo)). split; [lia | apply in_seq; lia].
Qed.

Lemma channel_bounds (n : Z) :
  -15 <= n <= 255 -> between channel_min Double.one (channel n) = true.
Proof.
  intros H.
  assert (A : forallb (fun n => between channel_min Double.one (channel n))
                      (Z_range (-15) 271) = true) by (vm_compute; reflexivity).
  rewrite forallb_forall in A. apply A, Z_range_complete. lia.
Qed.

Lemma channel_unit (n : Z) :
  0 <= n <= 255 -> between Double.zero Double.one (channel n) = true.
Proof.
  intros H.
  assert (A : forallb (fun n => between Double.zero Double.one (channel n))
                      (Z_range 0 256) = true) by (vm_compute; reflexivity).
  rewrite forallb_forall in A. apply A, Z_range_complete. lia.
Qed.

Lemma channel_255 : channel 255 = Double.one.
Proof. vm_compute. reflexivity. Qed.

Lemma channel_0 : channel 0 = Double.zero.
Proof. vm_compute. reflexivity. Qed.

(** * Properties of [draw_util_hex_to_color] *)

(** ** What the function computes *)

Section HexToColorFacts.

Variable get_colorpixel : list ascii -> Z.

(** The function, one read after the other. *)
Lemma hex_to_color_unfold (color : list ascii) :
  draw_util_hex_to_color get_colorpixel color =
  match strlen color with
  | None => None
  | Some n =>
      match alpha_group color n with
      | None => None
      | Some (a0, a1) =>
          match nth_error color 1, nth_error color 2, nth_error color 3,
                nth_error color 4, nth_error color 5, nth_error color 6 with
          | Some c1, Some c2, Some c3, Some c4, Some c5, Some c6 =>
              Some (mk_color (channel (strtol (group c1 c2) 16))
                             (channel (strtol (group c3 c4) 16))
                             (channel (strtol (group c5 c6) 16))
                             (channel (strtol (group a0 a1) 16))
                             (get_colorpixel color))
          | _, _, _, _, _, _ => None
          end
      end
  end.
Proof.
  unfold draw_util_hex_to_color, alpha_group.
  change (strlen (cstring "#rrggbbaa")) with (Some 9%nat).
  unfold obind.
  destruct (strlen color) as [n|]; [|reflexivity].
  destruct (Nat.eqb n 9);
    [destruct (nth_error color 7); [|reflexivity];
     destruct (nth_error color 8); [|reflexivity]|];
    destruct (nth_error color 1); try reflexivity;
    destruct (nth_error color 2); try reflexivity;
    destruct (nth_error color 3); try reflexivity;
    destruct (nth_error color 4); try reflexivity;
    destruct (nth_error color 5); try reflexivity;
    destruct (nth_error color 6); reflexivity.
Qed.

Lemma alpha_group_defined (color : list ascii) (n : nat) :
  strlen color = Some n -> exists a, alpha_group color n = Some a.
Proof.
  intros Hn. apply strlen_lt in Hn. unfold alpha_group.
  destruct (Nat.eqb n 9) eqn:E; [|eauto].
  apply Nat.eqb_eq in E. subst n.
  destruct (read_in_bounds color 7) as [a0 ->]; [lia|].
  destruct (read_in_bounds color 8) as [a1 ->]; [lia|].
  eauto.
Qed.

(** With seven bytes in a terminated buffer every read is inside it. *)
Lemma hex_to_color_defined (color : list ascii) (n : nat) :
  strlen color = Some n -> (7 <= List.length color)%nat ->
  exists c1 c2 c3 c4 c5 c6 a0 a1,
    nth_error color 1 = Some c1 /\ nth_error color 3 = Some c3 /\
    nth_error color 5 = Some c5 /\ alpha_group color n = Some (a0, a1) /\
    draw_util_hex_to_color get_colorpixel color =
    Some (mk_color (channel (strtol (group c1 c2) 16))
                   (channel (strtol (group c3 c4) 16))
                   (channel (strtol (group c5 c6) 16))
                   (channel (strtol (group a0 a1) 16))
                   (get_colorpixel color)).
Proof.
  intros Hn Hlen. rewrite hex_to_color_unfold, Hn.
  destruct (alpha_group_defined color n Hn) as [[a0 a1] Ha]. rewrite Ha.
  destruct (read_in_bounds color 1) as [c1 H1]; [lia|].
  destruct (read_in_bounds color 2) as [c2 H2]; [lia|].
  destruct (read_in_bounds color 3) as [c3 H3]; [lia|].
  destruct (read_in_bounds color 4) as [c4 H4]; [lia|].
  destruct (read_in_bounds color 5) as [c5 H5]; [lia|].
  destruct (read_in_bounds color 6) as [c6 H6]; [lia|].
  rewrite H1, H2, H3, H4, H5, H6.
  exists c1, c2, c3, c4, c5, c6, a0, a1. auto.
Qed.

Lemma hex_to_color_undefined (color : list ascii) :
  (List.length color < 7)%nat -> draw_util_hex_to_color get_colorpixel color = None.
Proof.
  intros Hlen. rewrite hex_to_color_unfold.
  destruct (strlen color) as [n|]; [|reflexivity].
  destruct (alpha_group color n) as [[a0 a1]|]; [|reflexivity].
  assert (E : nth_error color 6 = None) by (apply nth_error_None; lia).
  rewrite E.
  destruct (nth_error color 1), (nth_error color 2), (nth_error color 3),
    (nth_error color 4), (nth_error color 5); reflexivity.
Qed.

End HexToColorFacts.

(** ** The stated properties of color parsing *)

(** C1. ["#000000"] parses to red, green and blue 0 and alpha 1, and
    ["#ffffffff"] parses to all four channels 1. *)
Theorem hex_to_color_black_and_white (get_colorpixel : list ascii -> Z) :
  (exists c, draw_util_hex_to_color get_colorpixel (cstring "#000000") = Some c /\
             red c = Double.zero /\ green c = Double.zero /\
             blue c = Double.zero /\ alpha c = Double.one) /\
  (exists c, draw_util_hex_to_color get_colorpixel (cstring "#ffffffff") = Some c /\
             red c = Double.one /\ green c = Double.one /\
             blue c = Double.one /\ alpha c = Double.one).
Proof.
  split; eexists; (split; [vm_compute; reflexivity|]); simpl;
    repeat split; vm_compute; reflexivity.
Qed.

(** C2. For a string of length 9 the alpha channel is the value of its two
    last hex digits (characters 7 and 8) divided by 255; for a string of any
    other length the alpha channel of the returned color is 1, and a color
    is returned as soon as the string has its six color characters. *)
Theorem hex_to_color_alpha (get_colorpixel : list ascii -> Z)
    (color : list ascii) (n : nat) :
  strlen color = Some n ->
  (n = 9%nat ->
   exists a0 a1 c,
     nth_error color 7 = Some a0 /\ nth_error color 8 = Some a1 /\
     draw_util_hex_to_color get_colorpixel color = Some c /\
     forall v, hex_pair a0 a1 = Some v ->
               alpha c = Double.div (Double.of_Z v) (Double.of_Z 255)) /\
  (n <> 9%nat ->
   (forall c, draw_util_hex_to_color get_colorpixel color = Some c ->
              alpha c = Double.one) /\
   ((6 <= n)%nat ->
    exists c, draw_util_hex_to_color get_colorpixel color = Some c)).
Proof.
  intros Hn. pose proof (strlen_lt _ _ Hn) as Hlt. split.
  - intros ->.
    destruct (hex_to_color_defined get_colorpixel color 9 Hn)
      as (c1 & c2 & c3 & c4 & c5 & c6 & a0 & a1 & _ & _ & _ & Ha & Hc); [lia|].
    unfold alpha_group in Ha. rewrite Nat.eqb_refl in Ha.
    destruct (nth_error color 7) as [b0|]; [|discriminate].
    destruct (nth_error color 8) as [b1|]; [|discriminate].
    injection Ha as <- <-.
    eexists b0, b1, _. repeat split; [exact Hc|].
    intros v Hv. simpl. now rewrite (group_hex _ _ _ Hv).
  - intros Hne. split.
    + intros c. rewrite hex_to_color_unfold, Hn. unfold alpha_group.
      destruct (Nat.eqb n 9) eqn:E; [apply Nat.eqb_eq in E; contradiction|].
      destruct (nth_error color 1), (nth_error color 2), (nth_error color 3),
        (nth_error color 4), (nth_error color 5), (nth_error color 6);
        try discriminate.
      intros [= <-]. simpl. rewrite group_FF. apply channel_255.
    + intros H6.
      destruct (hex_to_color_defined get_colorpixel color n Hn)
        as (c1 & c2 & c3 & c4 & c5 & c6 & a0 & a1 & _ & _ & _ & _ & Hc); [lia|].
      eauto.
Qed.

Lemma hex_to_color_alpha_witness :
  (exists a0 a1 c,
     nth_error (cstring "#10203040") 7 = Some a0 /\
     nth_error (cstring "#10203040") 8 = Some a1 /\
     draw_util_hex_to_color no_colorpixel (cstring "#10203040") = Some c /\
     forall v, hex_pair a0 a1 = Some v ->
               alpha c = Double.div (Double.of_Z v) (Double.of_Z 255)) /\
  (forall c, draw_util_hex_to_color no_colorpixel (cstring "#102030") = Some c ->
             alpha c = Double.one).
Proof.
  split.
  - apply (hex_to_color_alpha no_colorpixel (cstring "#10203040") 9);
      reflexivity.
  - apply (hex_to_color_alpha no_colorpixel (cstring "#102030") 7);
      [reflexivity | discriminate].
Defined.

(** C3, as the code has it.  For a string of length at least 7 each channel
    lies between -15/255 and 1: a group is read by [strtol], which takes a
    minus sign followed by one hex digit as a negative number.  A channel
    lies in [0, 1] when its group does not start with a minus sign. *)
Theorem hex_to_color_channel_bounds (get_colorpixel : list ascii -> Z)
    (color : list ascii) (n : nat) :
  strlen color = Some n -> (7 <= n)%nat ->
  exists c,
    draw_util_hex_to_color get_colorpixel color = Some c /\
    between channel_min Double.one (red c) = true /\
    between channel_min Double.one (green c) = true /\
    between channel_min Double.one (blue c) = true /\
    between channel_min Double.one (alpha c) = true /\
    (nth_error color 1 <> Some "-"%char ->
     between Double.zero Double.one (red c) = true) /\
    (nth_error color 3 <> Some "-"%char ->
     between Double.zero Double.one (green c) = true) /\
    (nth_error color 5 <> Some "-"%char ->
     between Double.zero Double.one (blue c) = true) /\
    (nth_error color 7 <> Some "-"%char ->
     between Double.zero Double.one (alpha c) = true).
Proof.
  assert (Hminus : forall c, Some c <> Some "-"%char -> is_minus c = false).
  { intros c Hc. destruct (is_minus c) eqn:E; [|reflexivity].
    exfalso. apply Hc. f_equal. revert E.
    assert (A : forall_ascii (fun c => negb (is_minus c) || Ascii.eqb c "-")
                = true) by (vm_compute; reflexivity).
    pose proof (forall_ascii_spec _ A c) as B. cbv beta in B.
    intros E. rewrite E in B. now apply Ascii.eqb_eq. }
  intros Hn H7. pose proof (strlen_lt _ _ Hn) as Hlt.
  destruct (hex_to_color_defined get_colorpixel color n Hn)
    as (c1 & c2 & c3 & c4 & c5 & c6 & a0 & a1 & H1 & H3 & H5 & Ha & Hc); [lia|].
  eexists. split; [exact Hc|]. cbn [red green blue alpha].
  repeat split; try (apply channel_bounds, group_range).
  - intros H. rewrite H1 in H. apply channel_unit, group_nonneg, Hminus, H.
  - intros H. rewrite H3 in H. apply channel_unit, group_nonneg, Hminus, H.
  - intros H. rewrite H5 in H. apply channel_unit, group_nonneg, Hminus, H.
  - intros H. apply channel_unit, group_nonneg.
    unfold alpha_group in Ha. destruct (Nat.eqb n 9).
    + destruct (nth_error color 7) as [b0|]; [|discriminate].
      destruct (nth_error color 8) as [b1|]; [|discriminate].
      injection Ha as <- <-. now apply Hminus.
    + injection Ha as <- <-. reflexivity.
Qed.

Lemma hex_to_color_channel_bounds_witness :
  exists c,
    draw_util_hex_to_color no_colorpixel (cstring "#-f7f3cee") = Some c /\
    between channel_min Double.one (red c) = true /\
    between channel_min Double.one (green c) = true /\
    between channel_min Double.one (blue c) = true /\
    between channel_min Double.one (alpha c) = true /\
    (nth_error (cstring "#-f7f3cee") 1 <> Some "-"%char ->
     between Double.zero Double.one (red c) = true) /\
    (nth_error (cstring "#-f7f3cee") 3 <> Some "-"%char ->
     between Double.zero Double.one (green c) = true) /\
    (nth_error (cstring "#-f7f3cee") 5 <> Some "-"%char ->
     between Double.zero Double.one (blue c) = true) /\
    (nth_error (cstring "#-f7f3cee") 7 <> Some "-"%char ->
     between Double.zero Double.one (alpha c) = true).
Proof.
  apply (hex_to_color_channel_bounds no_colorpixel (cstring "#-f7f3cee") 9).
  - reflexivity.
  - lia.
Defined.

(** C3 as stated fails: the red channel of ["#-f0000"] is -15/255. *)
Lemma hex_to_color_negative_channel :
  exists c,
    strlen (cstring "#-f0000") = Some 7%nat /\
    draw_util_hex_to_color no_colorpixel (cstring "#-f0000") = Some c /\
    red c = channel (-15) /\
    Double.leb Double.zero (red c) = false.
Proof.
  eexists. split; [reflexivity|]. split; [vm_compute; reflexivity|].
  split; vm_compute; reflexivity.
Qed.

(** C4, as the code has it.  The function has no error result: on a
    terminated buffer it returns a color, whatever the characters are,
    exactly when the buffer has the seven bytes it reads (every string of
    six or more characters has them).  On a shorter buffer the reads leave
    the buffer and no value is defined. *)
Theorem hex_to_color_returns (get_colorpixel : list ascii -> Z)
    (color : list ascii) (n : nat) :
  strlen color = Some n ->
  ((exists c, draw_util_hex_to_color get_colorpixel color = Some c) <->
   (7 <= List.length color)%nat) /\
  ((6 <= n)%nat -> (7 <= List.length color)%nat).
Proof.
  intros Hn. split; [split|].
  - intros [c Hc].
    destruct (Nat.le_gt_cases 7 (List.length color)) as [H|H]; [exact H|].
    rewrite (hex_to_color_undefined get_colorpixel color) in Hc by lia.
    discriminate.
  - intros Hlen.
    destruct (hex_to_color_defined get_colorpixel color n Hn Hlen)
      as (c1 & c2 & c3 & c4 & c5 & c6 & a0 & a1 & _ & _ & _ & _ & Hc).
    eauto.
  - intros H6. apply strlen_lt in Hn. lia.
Qed.

Lemma hex_to_color_returns_witness :
  exists c, draw_util_hex_to_color no_colorpixel (cstring "no hex") = Some c.
Proof.
  apply (proj1 (hex_to_color_returns no_colorpixel (cstring "no hex") 6
                  eq_refl)).
  simpl. lia.
Defined.

(** C4 as stated fails: the three-digit ["#fff"] sits in a buffer of five
    bytes and the function reads [color[5]] and [color[6]]. *)
Lemma hex_to_color_short_string :
  strlen (cstring "#fff") = Some 4%nat /\
  ~ exists c, draw_util_hex_to_color no_colorpixel (cstring "#fff") = Some c.
Proof.
  split; [reflexivity|]. intros [c Hc]. vm_compute in Hc. discriminate.
Qed.

(** C8. Two strings of equal length that agree on characters 1 to 8 parse
    to the same four channels, whatever their character 0 is. *)
Theorem hex_to_color_ignores_first_char (get_colorpixel : list ascii -> Z)
    (color1 color2 : list ascii) :
  strlen color1 = strlen color2 ->
  (forall i, (1 <= i <= 8)%nat -> nth_error color1 i = nth_error color2 i) ->
  option_map channels (draw_util_hex_to_color get_colorpixel color1) =
  option_map channels (draw_util_hex_to_color get_colorpixel color2).
Proof.
  intros Hlen Hnth. rewrite !hex_to_color_unfold, <- Hlen.
  destruct (strlen color1) as [n|]; [|reflexivity].
  unfold alpha_group.
  rewrite <- (Hnth 1%nat), <- (Hnth 2%nat), <- (Hnth 3%nat), <- (Hnth 4%nat),
    <- (Hnth 5%nat), <- (Hnth 6%nat), <- (Hnth 7%nat), <- (Hnth 8%nat) by lia.
  destruct (Nat.eqb n 9);
    [destruct (nth_error color1 7); [|reflexivity];
     destruct (nth_error color1 8); [|reflexivity]|];
    destruct (nth_error color1 1); try reflexivity;
    destruct (nth_error color1 2); try reflexivity;
    destruct (nth_error color1 3); try reflexivity;
    destruct (nth_error color1 4); try reflexivity;
    destruct (nth_error color1 5); try reflexivity;
    destruct (nth_error color1 6); reflexivity.
Qed.

Lemma hex_to_color_ignores_first_char_witness :
  option_map channels
    (draw_util_hex_to_color no_colorpixel (cstring "#ff800040")) =
  option_map channels
    (draw_util_hex_to_color no_colorpixel (cstring "xff800040")).
Proof.
  apply (hex_to_color_ignores_first_char no_colorpixel
           (cstring "#ff800040") (cstring "xff800040")).
  - reflexivity.
  - intros i Hi.
    do 9 (destruct i as [|i]; [try lia; reflexivity|]). lia.
Defined.

(** * Properties of [draw_util_surface_init] *)

Section InitFacts.

Variable I3BAR_CAIRO : bool.
Variables xcb_connection visual_type : Z.
Context {W : Type} (h : handler W).

(** A run of the function, reply by reply. *)
Lemma init_run (w : W) (s : surface_t) (drawable width height : Z) :
  run h (draw_util_surface_init I3BAR_CAIRO xcb_connection visual_type
                                s drawable width height) w =
  let (gc, w1) := h (xcb_generate_id xcb_connection) w in
  let (cookie, w2) :=
    h (xcb_create_gc_checked xcb_connection gc drawable 0 []) w1 in
  let (failed, w3) := h (xcb_request_failed cookie gc_error_message) w2 in
  if negb (failed =? 0) then Exited EXIT_FAILURE w3
  else if I3BAR_CAIRO then
    let (cs, w4) := h (cairo_xcb_surface_create xcb_connection drawable
                                                visual_type width height) w3 in
    let (cr, w5) := h (cairo_create cs) w4 in
    Returned (mk_surface drawable gc width height cs cr) w5
  else
    Returned (mk_surface drawable gc width height
                         (surface_surface s) (surface_cr s)) w3.
Proof.
  unfold draw_util_surface_init. simpl.
  destruct (h (xcb_generate_id xcb_connection) w) as [gc w1]. simpl.
  destruct (h (xcb_create_gc_checked xcb_connection gc drawable 0 []) w1)
    as [cookie w2]. simpl.
  destruct (h (xcb_request_failed cookie gc_error_message) w2)
    as [failed w3]. simpl.
  destruct (negb (failed =? 0)); [reflexivity|].
  destruct I3BAR_CAIRO; simpl; [|reflexivity].
  destruct (h (cairo_xcb_surface_create xcb_connection drawable
                 visual_type width height) w3) as [cs w4]. simpl.
  destruct (h (cairo_create cs) w4) as [cr w5]. reflexivity.
Qed.

End InitFacts.

(** C5. [draw_util_surface_init] leaves the process with [EXIT_FAILURE]
    exactly when the request for the graphics context of the drawable
    fails; otherwise, and only then, it returns. *)
Theorem surface_init_exits_iff_gc_fails (I3BAR_CAIRO : bool)
    (xcb_connection visual_type : Z) (W : Type) (h : handler W) (w : W)
    (s : surface_t) (drawable width height : Z) :
  let p := draw_util_surface_init I3BAR_CAIRO xcb_connection visual_type
                                  s drawable width height in
  (gc_request_failed xcb_connection h w drawable = true <->
   exists w', run h p w = Exited EXIT_FAILURE w') /\
  (gc_request_failed xcb_connection h w drawable = false <->
   exists s' w', run h p w = Returned s' w').
Proof.
  intros p. subst p. rewrite init_run. unfold gc_request_failed.
  destruct (h (xcb_generate_id xcb_connection) w) as [gc w1].
  destruct (h (xcb_create_gc_checked xcb_connection gc drawable 0 []) w1)
    as [cookie w2].
  destruct (h (xcb_request_failed cookie gc_error_message) w2)
    as [failed w3].
  destruct (negb (failed =? 0)).
  - split; split; eauto; try discriminate.
    intros (s' & w' & H). discriminate.
  - assert (R : exists s' w',
               (if I3BAR_CAIRO
                then
                  let (cs, w4) :=
                    h (cairo_xcb_surface_create xcb_connection drawable
                                                visual_type width height) w3 in
                  let (cr, w5) := h (cairo_create cs) w4 in
                  Returned (mk_surface drawable gc width height cs cr) w5
                else
                  Returned (mk_surface drawable gc width height
                                       (surface_surface s) (surface_cr s)) w3)
               = Returned s' w').
    { destruct I3BAR_CAIRO; [|eauto].
      destruct (h (cairo_xcb_surface_create xcb_connection drawable
                     visual_type width height) w3) as [cs w4].
      destruct (h (cairo_create cs) w4) as [cr w5]. eauto. }
    split; split; auto; try discriminate.
    intros [w' H]. destruct R as (s' & w'' & R). rewrite R in H. discriminate.
Qed.

Lemma surface_init_exits_iff_gc_fails_witness :
  exists w',
    run xserver_handler
        (draw_util_surface_init false 7 8 blank_surface 0 1920 24)
        xserver_start
    = Exited EXIT_FAILURE w'.
Proof.
  apply (proj1 (surface_init_exits_iff_gc_fails false 7 8 xserver
                  xserver_handler xserver_start blank_surface 0 1920 24)).
  reflexivity.
Defined.

Example surface_init_exits_on_missing_drawable :
  run xserver_handler
      (draw_util_surface_init true 7 8 blank_surface 0 1920 24)
      xserver_start
  = Exited EXIT_FAILURE (mk_xserver 4194305 2 [(1, BadDrawable)]).
Proof. reflexivity. Qed.

(** C10. When the request for the graphics context does not fail,
    [draw_util_surface_init] returns a surface whose drawable, width and
    height are the arguments it was given. *)
Theorem surface_init_stores_arguments (I3BAR_CAIRO : bool)
    (xcb_connection visual_type : Z) (W : Type) (h : handler W) (w : W)
    (s : surface_t) (drawable width height : Z) :
  gc_request_failed xcb_connection h w drawable = false ->
  exists s' w',
    run h (draw_util_surface_init I3BAR_CAIRO xcb_connection visual_type
                                  s drawable width height) w
    = Returned s' w' /\
    surface_id s' = drawable /\
    surface_width s' = width /\
    surface_height s' = height.
Proof.
  rewrite init_run. unfold gc_request_failed.
  destruct (h (xcb_generate_id xcb_connection) w) as [gc w1].
  destruct (h (xcb_create_gc_checked xcb_connection gc drawable 0 []) w1)
    as [cookie w2].
  destruct (h (xcb_request_failed cookie gc_error_message) w2)
    as [failed w3].
  intros ->. destruct I3BAR_CAIRO.
  - destruct (h (cairo_xcb_surface_create xcb_connection drawable
                   visual_type width height) w3) as [cs w4].
    destruct (h (cairo_create cs) w4) as [cr w5].
    eexists _, _. repeat split.
  - eexists _, _. repeat split.
Qed.

Lemma surface_init_stores_arguments_witness :
  exists s' w',
    run xserver_handler
        (draw_util_surface_init true 7 8 blank_surface 31457285 1920 24)
        xserver_start
    = Returned s' w' /\
    surface_id s' = 31457285 /\
    surface_width s' = 1920 /\
    surface_height s' = 24.
Proof.
  apply (surface_init_stores_arguments true 7 8 xserver xserver_handler
           xserver_start blank_surface 31457285 1920 24).
  reflexivity.
Defined.

(** * Properties of [draw_util_copy_surface] *)

Lemma in_int16_dec (z : Z) : {in_int16 z} + {~ in_int16 z}.
Proof.
  unfold in_int16.
  destruct (Z_le_dec (-32768) z), (Z_le_dec z 32767); (left; lia) || (right; lia).
Qed.

Lemma in_uint16_dec (z : Z) : {in_uint16 z} + {~ in_uint16 z}.
Proof.
  unfold in_uint16.
  destruct (Z_le_dec 0 z), (Z_le_dec z 65535); (left; lia) || (right; lia).
Qed.

Lemma double_to_int16_spec (x : Double.double) (z : Z) :
  Double.trunc x = Some z ->
  (in_int16 z -> double_to_int16 x = Some z) /\
  (~ in_int16 z -> double_to_int16 x = None).
Proof.
  intros H. unfold double_to_int16, in_int16, obind. rewrite H.
  destruct (-32768 <=? z) eqn:A; destruct (z <=? 32767) eqn:B; simpl;
    split; intros; try reflexivity; lia.
Qed.

Lemma double_to_uint16_spec (x : Double.double) (z : Z) :
  Double.trunc x = Some z ->
  (in_uint16 z -> double_to_uint16 x = Some z) /\
  (~ in_uint16 z -> double_to_uint16 x = None).
Proof.
  intros H. unfold double_to_uint16, in_uint16, obind. rewrite H.
  destruct (0 <=? z) eqn:A; destruct (z <=? 65535) eqn:B; simpl;
    split; intros; try reflexivity; lia.
Qed.

Lemma int16_wrap_id (z : Z) : in_int16 z -> int16_wrap z = z.
Proof.
  unfold in_int16, int16_wrap. intros H.
  rewrite Z.mod_small by lia. lia.
Qed.

Lemma uint16_wrap_id (z : Z) : in_uint16 z -> uint16_wrap z = z.
Proof.
  unfold in_uint16, uint16_wrap. intros H. apply Z.mod_small. lia.
Qed.

(** C9, as the code has it.  In the XCB build the six double arguments are
    converted by C casts.  When the integral part of every offset is a
    signed and of every size an unsigned 16-bit value, the copy is issued
    with exactly these integral parts (they are their own residues modulo
    2^16).  When one of them is not, the conversion is undefined and no
    copy, wrapped or not, is issued. *)
Theorem copy_surface_xcb_conversions (xcb_connection : Z)
    (src dest : surface_t)
    (src_x src_y dest_x dest_y width height : Double.double)
    (sx sy dx dy w h : Z) :
  Double.trunc src_x = Some sx -> Double.trunc src_y = Some sy ->
  Double.trunc dest_x = Some dx -> Double.trunc dest_y = Some dy ->
  Double.trunc width = Some w -> Double.trunc height = Some h ->
  let p := draw_util_copy_surface false xcb_connection src dest
                                  src_x src_y dest_x dest_y width height in
  let in_range := in_int16 sx /\ in_int16 sy /\ in_int16 dx /\ in_int16 dy /\
                  in_uint16 w /\ in_uint16 h in
  (in_range ->
   p = call (xcb_copy_area xcb_connection (surface_id src) (surface_id dest)
                           (surface_gc dest) sx sy dx dy w h) /\
   int16_wrap sx = sx /\ int16_wrap sy = sy /\ int16_wrap dx = dx /\
   int16_wrap dy = dy /\ uint16_wrap w = w /\ uint16_wrap h = h) /\
  (~ in_range -> p = Undef).
Proof.
  intros Hsx Hsy Hdx Hdy Hw Hh p in_range. subst p in_range.
  destruct (double_to_int16_spec _ _ Hsx) as [Asx Bsx].
  destruct (double_to_int16_spec _ _ Hsy) as [Asy Bsy].
  destruct (double_to_int16_spec _ _ Hdx) as [Adx Bdx].
  destruct (double_to_int16_spec _ _ Hdy) as [Ady Bdy].
  destruct (double_to_uint16_spec _ _ Hw) as [Aw Bw].
  destruct (double_to_uint16_spec _ _ Hh) as [Ah Bh].
  unfold draw_util_copy_surface. split.
  - intros (Isx & Isy & Idx & Idy & Iw & Ih).
    rewrite Asx, Asy, Adx, Ady, Aw, Ah by assumption.
    repeat split; auto using int16_wrap_id, uint16_wrap_id.
  - intros Hout.
    destruct (in_int16_dec sx) as [Isx|N];
      [rewrite (Asx Isx)|rewrite (Bsx N); reflexivity].
    destruct (in_int16_dec sy) as [Isy|N];
      [rewrite (Asy Isy)|rewrite (Bsy N); reflexivity].
    destruct (in_int16_dec dx) as [Idx|N];
      [rewrite (Adx Idx)|rewrite (Bdx N); reflexivity].
    destruct (in_int16_dec dy) as [Idy|N];
      [rewrite (Ady Idy)|rewrite (Bdy N); reflexivity].
    destruct (in_uint16_dec w) as [Iw|N];
      [rewrite (Aw Iw)|rewrite (Bw N); reflexivity].
    destruct (in_uint16_dec h) as [Ih|N];
      [rewrite (Ah Ih)|rewrite (Bh N); reflexivity].
    exfalso. apply Hout. auto 10.
Qed.

Lemma copy_surface_xcb_conversions_witness :
  draw_util_copy_surface false 7 buffer_surface bar_surface
    (Double.of_Z 0) (Double.of_Z 0)
    (Double.div (Double.of_Z 201) (Double.of_Z 2)) (Double.of_Z 0)
    (Double.of_Z 1920) (Double.of_Z 24)
  = call (xcb_copy_area 7 31457287 31457285 31457286 0 0 100 0 1920 24).
Proof.
  apply (copy_surface_xcb_conversions 7 buffer_surface bar_surface
           (Double.of_Z 0) (Double.of_Z 0)
           (Double.div (Double.of_Z 201) (Double.of_Z 2)) (Double.of_Z 0)
           (Double.of_Z 1920) (Double.of_Z 24)
           0 0 100 0 1920 24 eq_refl eq_refl eq_refl eq_refl eq_refl eq_refl).
  unfold in_int16, in_uint16. lia.
Defined.

(** C9 as stated fails: the offset 10^10 has the residue -7168 modulo 2^16,
    but its conversion to [int16_t] is undefined and the wrapped copy is
    not what the function issues. *)
Lemma copy_surface_xcb_no_wrap :
  Double.trunc (Double.of_Z 10000000000) = Some 10000000000 /\
  int16_wrap 10000000000 = -7168 /\
  draw_util_copy_surface false 7 buffer_surface bar_surface
    (Double.of_Z 10000000000) (Double.of_Z 0) (Double.of_Z 0) (Double.of_Z 0)
    (Double.of_Z 10) (Double.of_Z 10)
  <> call (xcb_copy_area 7 31457287 31457285 31457286
                         (int16_wrap 10000000000) 0 0 0 10 10).
Proof.
  split; [reflexivity|]. split; [reflexivity|].
  intros H. vm_compute in H. discriminate.
Qed.

(** C7 fails on the code.  Copying the 10 by 10 square at (0, 0) of the
    source to (0, 5) of the destination, the XCB path fills pixel (0, 5)
    from source pixel (0, 0); the cairo path hands [src_y] instead of
    [dest_y - src_y] to [cairo_set_source_surface] and fills the same pixel
    from source pixel (0, 5). *)
Theorem copy_surface_paths_disagree (xcb_connection : Z)
    (src dest : surface_t) :
  let copy cairo :=
    draw_util_copy_surface cairo xcb_connection src dest
      (Double.of_Z 0) (Double.of_Z 0) (Double.of_Z 0) (Double.of_Z 5)
      (Double.of_Z 10) (Double.of_Z 10) in
  copy_source (trace (copy false)) 0 5 = Some (0, 0) /\
  copy_source (trace (copy true)) 0 5 = Some (0, 5).
Proof.
  split; reflexivity.
Qed.

(** The same for every pixel of the destination square: the XCB path takes
    it five rows up in the source, the cairo path from its own row. *)
Lemma copy_surface_rows_differ (xcb_connection : Z) (src dest : surface_t)
    (X Y : Z) :
  inside 0 5 10 10 X Y = true ->
  let copy cairo :=
    draw_util_copy_surface cairo xcb_connection src dest
      (Double.of_Z 0) (Double.of_Z 0) (Double.of_Z 0) (Double.of_Z 5)
      (Double.of_Z 10) (Double.of_Z 10) in
  copy_source (trace (copy false)) X Y = Some (X, Y - 5) /\
  copy_source (trace (copy true)) X Y = Some (X, Y).
Proof.
  intros H copy. subst copy. split.
  - change (copy_source
              [xcb_copy_area xcb_connection (surface_id src) (surface_id dest)
                             (surface_gc dest) 0 0 0 5 10 10] X Y
            = Some (X, Y - 5)).
    unfold copy_source. cbn [fold_left read_call]. rewrite H.
    cbn [taken_from]. f_equal. f_equal; lia.
  - change (taken_from
              (read_call X Y
                 (read_call X Y
                    (read_call X Y (mk_reading None None None)
                       (cairo_set_source_surface (surface_cr dest)
                          (surface_surface src) (Double.of_Z 0) (Double.of_Z 0)))
                    (cairo_rectangle (surface_cr dest) (Double.of_Z 0)
                       (Double.of_Z 5) (Double.of_Z 10) (Double.of_Z 10)))
                 (cairo_fill (surface_cr dest)))
            = Some (X, Y)).
    change (taken_from
              (if inside 0 5 10 10 X Y
               then mk_reading (Some (0, 0)) None (Some (X - 0, Y - 0))
               else mk_reading (Some (0, 0)) None None)
            = Some (X, Y)).
    rewrite H. cbn [taken_from]. f_equal. f_equal; lia.
Qed.

(** With both vertical offsets 0 the two paths take the same pixels. *)
Example copy_surface_paths_agree_at_top (xcb_connection : Z)
    (src dest : surface_t) :
  let copy cairo :=
    draw_util_copy_surface cairo xcb_connection src dest
      (Double.of_Z 3) (Double.of_Z 0) (Double.of_Z 7) (Double.of_Z 0)
      (Double.of_Z 10) (Double.of_Z 10) in
  copy_source (trace (copy false)) 9 2 = Some (5, 2) /\
  copy_source (trace (copy true)) 9 2 = Some (5, 2).
Proof.
  split; reflexivity.
Qed.

(** * Further properties of [draw_util_hex_to_color] *)

Lemma forall_bits_spec (k : nat) (P : Z -> bool) (b : Z) :
  forall_bits k b P = true ->
  forall n, b * 2 ^ Z.of_nat k <= n < (b + 1) * 2 ^ Z.of_nat k -> P n = true.
Proof.
  revert b. induction k as [|k IH]; intros b H n Hn.
  - simpl in *. replace n with b by lia. exact H.
  - cbn [forall_bits] in H. apply andb_true_iff in H as [H0 H1].
    rewrite Nat2Z.inj_succ, Z.pow_succ_r in Hn by lia.
    assert (Hp : 0 < 2 ^ Z.of_nat k) by (apply Z.pow_pos_nonneg; lia).
    destruct (Z_lt_ge_dec n ((2 * b + 1) * 2 ^ Z.of_nat k)).
    + apply (IH (2 * b) H0). nia.
    + apply (IH (2 * b + 1) H1). nia.
Qed.

Lemma group_value_spec (c1 c2 : ascii) :
  strtol (group c1 c2) 16 = group_value c1 c2.
Proof.
  assert (H : forall_ascii (fun c1 => forall_ascii (fun c2 =>
                strtol (group c1 c2) 16 =? group_value c1 c2)) = true)
    by (vm_compute; reflexivity).
  apply Z.eqb_eq.
  exact (forall_ascii_spec _ (forall_ascii_spec _ H c1) c2).
Qed.

Lemma group_tolower (c1 c2 : ascii) :
  strtol (group (tolower c1) (tolower c2)) 16 = strtol (group c1 c2) 16.
Proof.
  assert (H : forall_ascii (fun c1 => forall_ascii (fun c2 =>
                strtol (group (tolower c1) (tolower c2)) 16
                =? strtol (group c1 c2) 16)) = true)
    by (vm_compute; reflexivity).
  apply Z.eqb_eq.
  exact (forall_ascii_spec _ (forall_ascii_spec _ H c1) c2).
Qed.

Lemma tolower_nul (c : ascii) : is_nul (tolower c) = is_nul c.
Proof.
  assert (H : forall_ascii (fun c => Bool.eqb (is_nul (tolower c)) (is_nul c))
              = true) by (vm_compute; reflexivity).
  apply eqb_prop. exact (forall_ascii_spec _ H c).
Qed.

Lemma strlen_map_tolower (s : list ascii) :
  strlen (map tolower s) = strlen s.
Proof.
  induction s as [|c s IH]; simpl; [reflexivity|].
  rewrite tolower_nul, IH. reflexivity.
Qed.

Lemma strlen_app_NUL (s t : list ascii) :
  no_nul s = true -> strlen (s ++ NUL :: t) = Some (List.length s).
Proof.
  induction s as [|c s IH]; simpl; [reflexivity|].
  intros H. apply andb_true_iff in H as [Hc Hs].
  apply negb_true_iff in Hc. rewrite Hc, (IH Hs). reflexivity.
Qed.

Lemma nth_error_app_NUL (s t t' : list ascii) (i : nat) :
  (i <= List.length s)%nat ->
  nth_error (s ++ NUL :: t) i = nth_error (s ++ NUL :: t') i.
Proof.
  intros H. destruct (Nat.eq_dec i (List.length s)) as [->|Hne].
  - rewrite !nth_error_app2, Nat.sub_diag by lia. reflexivity.
  - rewrite !nth_error_app1 by lia. reflexivity.
Qed.

(** X1. A well-formed color: when characters 1 to 6 are hex digits, red,
    green and blue are the values of the three pairs divided by 255. *)
Theorem hex_to_color_hex_digits (get_colorpixel : list ascii -> Z)
    (color : list ascii) (n : nat) (c1 c2 c3 c4 c5 c6 : ascii) (r g b : Z) :
  strlen color = Some n ->
  nth_error color 1 = Some c1 -> nth_error color 2 = Some c2 ->
  nth_error color 3 = Some c3 -> nth_error color 4 = Some c4 ->
  nth_error color 5 = Some c5 -> nth_error color 6 = Some c6 ->
  hex_pair c1 c2 = Some r -> hex_pair c3 c4 = Some g ->
  hex_pair c5 c6 = Some b ->
  exists c,
    draw_util_hex_to_color get_colorpixel color = Some c /\
    red c = Double.div (Double.of_Z r) (Double.of_Z 255) /\
    green c = Double.div (Double.of_Z g) (Double.of_Z 255) /\
    blue c = Double.div (Double.of_Z b) (Double.of_Z 255) /\
    0 <= r <= 255 /\ 0 <= g <= 255 /\ 0 <= b <= 255.
Proof.
  intros Hn H1 H2 H3 H4 H5 H6 Hr Hg Hb.
  rewrite hex_to_color_unfold, Hn.
  destruct (alpha_group_defined color n Hn) as [[a0 a1] Ha].
  rewrite Ha, H1, H2, H3, H4, H5, H6.
  eexists. split; [reflexivity|]. cbn [red green blue].
  pose proof (group_nonneg c1 c2) as R.
  pose proof (group_nonneg c3 c4) as G.
  pose proof (group_nonneg c5 c6) as B.
  rewrite (group_hex _ _ _ Hr) in *. rewrite (group_hex _ _ _ Hg) in *.
  rewrite (group_hex _ _ _ Hb) in *.
  assert (M : forall x y v, hex_pair x y = Some v -> is_minus x = false).
  { intros x y v. unfold hex_pair.
    assert (A : forall_ascii (fun x => match digit_in 16 x with
                                       | Some _ => negb (is_minus x)
                                       | None => true
                                       end) = true) by (vm_compute; reflexivity).
    pose proof (forall_ascii_spec _ A x) as Bx. cbv beta in Bx.
    destruct (digit_in 16 x); [|discriminate].
    intros _. now apply negb_true_iff. }
  repeat split; try reflexivity;
    try (apply R; eapply M; eassumption);
    try (apply G; eapply M; eassumption);
    try (apply B; eapply M; eassumption).
Qed.

Lemma hex_to_color_hex_digits_witness :
  exists c,
    draw_util_hex_to_color no_colorpixel (cstring "#3fbc59") = Some c /\
    red c = Double.div (Double.of_Z 63) (Double.of_Z 255) /\
    green c = Double.div (Double.of_Z 188) (Double.of_Z 255) /\
    blue c = Double.div (Double.of_Z 89) (Double.of_Z 255) /\
    0 <= 63 <= 255 /\ 0 <= 188 <= 255 /\ 0 <= 89 <= 255.
Proof.
  apply (hex_to_color_hex_digits no_colorpixel (cstring "#3fbc59") 7
           "3" "f" "b" "c" "5" "9" 63 188 89); reflexivity.
Defined.

(** X2. Any text: for a terminated buffer of at least seven bytes the three
    color channels are the values [group_value] gives the pairs, divided by
    255: a digit after white space or a sign counts alone, a digit followed
    by a non-digit counts alone, a pair that starts with any other
    character counts 0. *)
Theorem hex_to_color_any_text (get_colorpixel : list ascii -> Z)
    (color : list ascii) (n : nat) :
  strlen color = Some n -> (7 <= List.length color)%nat ->
  exists c1 c2 c3 c4 c5 c6 c,
    nth_error color 1 = Some c1 /\ nth_error color 2 = Some c2 /\
    nth_error color 3 = Some c3 /\ nth_error color 4 = Some c4 /\
    nth_error color 5 = Some c5 /\ nth_error color 6 = Some c6 /\
    draw_util_hex_to_color get_colorpixel color = Some c /\
    red c = Double.div (Double.of_Z (group_value c1 c2)) (Double.of_Z 255) /\
    green c = Double.div (Double.of_Z (group_value c3 c4)) (Double.of_Z 255) /\
    blue c = Double.div (Double.of_Z (group_value c5 c6)) (Double.of_Z 255).
Proof.
  intros Hn Hlen. rewrite hex_to_color_unfold, Hn.
  destruct (alpha_group_defined color n Hn) as [[a0 a1] Ha]. rewrite Ha.
  destruct (read_in_bounds color 1) as [c1 H1]; [lia|].
  destruct (read_in_bounds color 2) as [c2 H2]; [lia|].
  destruct (read_in_bounds color 3) as [c3 H3]; [lia|].
  destruct (read_in_bounds color 4) as [c4 H4]; [lia|].
  destruct (read_in_bounds color 5) as [c5 H5]; [lia|].
  destruct (read_in_bounds color 6) as [c6 H6]; [lia|].
  rewrite H1, H2, H3, H4, H5, H6.
  exists c1, c2, c3, c4, c5, c6. eexists.
  repeat split; cbn [red green blue]; unfold channel;
    now rewrite group_value_spec.
Qed.

Lemma hex_to_color_any_text_witness :
  exists c1 c2 c3 c4 c5 c6 c,
    nth_error (cstring "# 7-9fz") 1 = Some c1 /\
    nth_error (cstring "# 7-9fz") 2 = Some c2 /\
    nth_error (cstring "# 7-9fz") 3 = Some c3 /\
    nth_error (cstring "# 7-9fz") 4 = Some c4 /\
    nth_error (cstring "# 7-9fz") 5 = Some c5 /\
    nth_error (cstring "# 7-9fz") 6 = Some c6 /\
    draw_util_hex_to_color no_colorpixel (cstring "# 7-9fz") = Some c /\
    red c = Double.div (Double.of_Z (group_value c1 c2)) (Double.of_Z 255) /\
    green c = Double.div (Double.of_Z (group_value c3 c4)) (Double.of_Z 255) /\
    blue c = Double.div (Double.of_Z (group_value c5 c6)) (Double.of_Z 255).
Proof.
  apply (hex_to_color_any_text no_colorpixel (cstring "# 7-9fz") 7).
  - reflexivity.
  - simpl. lia.
Defined.

Example group_value_samples :
  group_value " " "7" = 7 /\ group_value "-" "9" = -9 /\
  group_value "f" "z" = 15 /\ group_value "z" "f" = 0 /\
  group_value "0" "x" = 0 /\ group_value "A" "b" = 171.
Proof. repeat split; reflexivity. Qed.

(** X3. Parsing does not look at the case of the letters: a color and its
    lower-case form have the same four channels. *)
Theorem hex_to_color_ignores_case (get_colorpixel : list ascii -> Z)
    (color : list ascii) :
  option_map channels
    (draw_util_hex_to_color get_colorpixel (map tolower color)) =
  option_map channels (draw_util_hex_to_color get_colorpixel color).
Proof.
  rewrite !hex_to_color_unfold, strlen_map_tolower.
  destruct (strlen color) as [n|]; [|reflexivity].
  unfold alpha_group. rewrite !nth_error_map.
  destruct (Nat.eqb n 9);
    [destruct (nth_error color 7) as [a0|]; [|reflexivity];
     destruct (nth_error color 8) as [a1|]; [|reflexivity]|];
    cbn [option_map];
    destruct (nth_error color 1); try reflexivity;
    destruct (nth_error color 2); try reflexivity;
    destruct (nth_error color 3); try reflexivity;
    destruct (nth_error color 4); try reflexivity;
    destruct (nth_error color 5); try reflexivity;
    destruct (nth_error color 6); try reflexivity;
    cbn [option_map channels red green blue alpha];
    rewrite !group_tolower; reflexivity.
Qed.

Example hex_to_color_ignores_case_sample :
  map tolower (cstring "#3FBC59Aa") = cstring "#3fbc59aa" /\
  option_map channels
    (draw_util_hex_to_color no_colorpixel (cstring "#3fbc59aa")) =
  option_map channels
    (draw_util_hex_to_color no_colorpixel (cstring "#3FBC59Aa")).
Proof.
  split; vm_compute; reflexivity.
Qed.

(** X4. The division by 255 keeps the order of the byte values and loses
    none: of two values between 0 and 255 the smaller one gives the smaller
    channel, and equal channels come from equal values. *)
Theorem channel_keeps_order (n m : Z) :
  0 <= n <= 255 -> 0 <= m <= 255 ->
  (n < m <-> Double.ltb (Double.div (Double.of_Z n) (Double.of_Z 255))
                        (Double.div (Double.of_Z m) (Double.of_Z 255)) = true) /\
  (n = m <-> Double.div (Double.of_Z n) (Double.of_Z 255) =
             Double.div (Double.of_Z m) (Double.of_Z 255)).
Proof.
  intros Hn Hm.
  assert (A : (let l := map (fun n => (n, channel n)) (Z_range 0 256) in
               forallb (fun p => forallb (fun q =>
                 Bool.eqb (fst p <? fst q) (Double.ltb (snd p) (snd q))) l) l)
              = true) by (vm_compute; reflexivity).
  cbv zeta in A. rewrite forallb_forall in A.
  assert (L : forall a b, 0 <= a <= 255 -> 0 <= b <= 255 ->
                (a <? b) = Double.ltb (channel a) (channel b)).
  { intros a b Ha Hb.
    assert (In (a, channel a) (map (fun n => (n, channel n)) (Z_range 0 256)))
      as Ia by (apply (in_map (fun n => (n, channel n))),
                Z_range_complete; simpl; lia).
    assert (In (b, channel b) (map (fun n => (n, channel n)) (Z_range 0 256)))
      as Ib by (apply (in_map (fun n => (n, channel n))),
                Z_range_complete; simpl; lia).
    pose proof (A _ Ia) as B. cbv beta in B. rewrite forallb_forall in B.
    specialize (B _ Ib). now apply eqb_prop in B. }
  fold (channel n). fold (channel m). split.
  - rewrite <- (L n m Hn Hm). symmetry. apply Z.ltb_lt.
  - split; [now intros ->|]. intros E.
    pose proof (L n m Hn Hm) as Lnm. pose proof (L m n Hm Hn) as Lmn.
    rewrite E in Lnm, Lmn.
    assert (Double.ltb (channel m) (channel m) = false) as Irr.
    { rewrite <- (L m m Hm Hm). apply Z.ltb_irrefl. }
    rewrite Irr in Lnm, Lmn.
    apply Z.ltb_ge in Lnm, Lmn. lia.
Qed.

Lemma channel_keeps_order_witness :
  (127 < 128 <-> Double.ltb (Double.div (Double.of_Z 127) (Double.of_Z 255))
                            (Double.div (Double.of_Z 128) (Double.of_Z 255))
                 = true) /\
  (127 = 128 <-> Double.div (Double.of_Z 127) (Double.of_Z 255) =
                 Double.div (Double.of_Z 128) (Double.of_Z 255)).
Proof.
  apply (channel_keeps_order 127 128); lia.
Defined.

(** X5. A string of six or more characters is parsed from its own
    characters only: what lies in memory behind its terminator does not
    change the four channels. *)
Theorem hex_to_color_stops_at_terminator (get_colorpixel : list ascii -> Z)
    (s t t' : list ascii) :
  no_nul s = true -> (6 <= List.length s)%nat ->
  option_map channels
    (draw_util_hex_to_color get_colorpixel (s ++ NUL :: t)) =
  option_map channels
    (draw_util_hex_to_color get_colorpixel (s ++ NUL :: t')).
Proof.
  intros Hs Hlen. rewrite !hex_to_color_unfold, !strlen_app_NUL by assumption.
  unfold alpha_group.
  rewrite (nth_error_app_NUL s t t' 1), (nth_error_app_NUL s t t' 2),
    (nth_error_app_NUL s t t' 3), (nth_error_app_NUL s t t' 4),
    (nth_error_app_NUL s t t' 5), (nth_error_app_NUL s t t' 6) by lia.
  destruct (Nat.eqb (List.length s) 9) eqn:E.
  - apply Nat.eqb_eq in E.
    rewrite (nth_error_app_NUL s t t' 7), (nth_error_app_NUL s t t' 8) by lia.
    destruct (nth_error (s ++ NUL :: t') 7); [|reflexivity].
    destruct (nth_error (s ++ NUL :: t') 8); [|reflexivity].
    destruct (nth_error (s ++ NUL :: t') 1); try reflexivity;
    destruct (nth_error (s ++ NUL :: t') 2); try reflexivity;
    destruct (nth_error (s ++ NUL :: t') 3); try reflexivity;
    destruct (nth_error (s ++ NUL :: t') 4); try reflexivity;
    destruct (nth_error (s ++ NUL :: t') 5); try reflexivity;
    destruct (nth_error (s ++ NUL :: t') 6); reflexivity.
  - destruct (nth_error (s ++ NUL :: t') 1); try reflexivity;
    destruct (nth_error (s ++ NUL :: t') 2); try reflexivity;
    destruct (nth_error (s ++ NUL :: t') 3); try reflexivity;
    destruct (nth_error (s ++ NUL :: t') 4); try reflexivity;
    destruct (nth_error (s ++ NUL :: t') 5); try reflexivity;
    destruct (nth_error (s ++ NUL :: t') 6); reflexivity.
Qed.

Lemma hex_to_color_stops_at_terminator_witness :
  option_map channels
    (draw_util_hex_to_color no_colorpixel
       (list_ascii_of_string "#285577" ++ NUL :: list_ascii_of_string "ff")) =
  option_map channels
    (draw_util_hex_to_color no_colorpixel
       (list_ascii_of_string "#285577" ++ NUL :: [])).
Proof.
  apply (hex_to_color_stops_at_terminator no_colorpixel
           (list_ascii_of_string "#285577") (list_ascii_of_string "ff") []).
  - reflexivity.
  - simpl. lia.
Defined.

(** A shorter string is not: the bytes behind the terminator of ["#fff"]
    become its blue channel. *)
Example hex_to_color_short_string_reads_on :
  option_map blue
    (draw_util_hex_to_color no_colorpixel
       (list_ascii_of_string "#fff" ++ NUL :: list_ascii_of_string "80")) =
  Some (Double.div (Double.of_Z 128) (Double.of_Z 255)) /\
  option_map blue
    (draw_util_hex_to_color no_colorpixel
       (list_ascii_of_string "#fff" ++ NUL :: list_ascii_of_string "c0")) =
  Some (Double.div (Double.of_Z 192) (Double.of_Z 255)).
Proof. split; vm_compute; reflexivity. Qed.

(** * Properties of the drawing functions *)

Lemma int16_of_zero : double_to_int16 (Double.of_Z 0) = Some 0.
Proof. reflexivity. Qed.

Lemma uint16_of_Z (n : Z) :
  in_uint16 n -> double_to_uint16 (Double.of_Z n) = Some n.
Proof.
  unfold in_uint16. intros H.
  assert (A : forall_bits 16 0 (fun n =>
                match double_to_uint16 (Double.of_Z n) with
                | Some m => m =? n
                | None => false
                end) = true)
    by (vm_compute; reflexivity).
  pose proof (forall_bits_spec 16 _ 0 A n ltac:(simpl; lia)) as B.
  cbv beta in B.
  destruct (double_to_uint16 (Double.of_Z n)); [|discriminate].
  apply Z.eqb_eq in B. now subst.
Qed.

(** X6. In the XCB build [draw_util_rectangle] sets the colors of the
    graphics context and fills the rectangle of the integral parts of its
    arguments when the position fits [int16_t] and the size [uint16_t];
    otherwise (a negative width, say) the conversion is undefined and the
    run has no defined outcome. *)
Theorem rectangle_xcb_conversions (xcb_connection : Z) (s : surface_t)
    (color : color_t) (x y w h : Double.double) (zx zy zw zh : Z) :
  Double.trunc x = Some zx -> Double.trunc y = Some zy ->
  Double.trunc w = Some zw -> Double.trunc h = Some zh ->
  let p := draw_util_rectangle false xcb_connection s color x y w h in
  let in_range :=
    in_int16 zx /\ in_int16 zy /\ in_uint16 zw /\ in_uint16 zh in
  (in_range ->
   p = (call (xcb_change_gc xcb_connection (surface_gc s) 12
                            [colorpixel color; colorpixel color]) ;;
        call (xcb_poly_fill_rectangle xcb_connection (surface_id s)
                                      (surface_gc s) [mk_rect zx zy zw zh]))%prog) /\
  (~ in_range ->
   forall (W : Type) (hd : handler W) (wd : W), run hd p wd = Undefined).
Proof.
  intros Hx Hy Hw Hh p in_range. subst p in_range.
  destruct (double_to_int16_spec _ _ Hx) as [Ax Bx].
  destruct (double_to_int16_spec _ _ Hy) as [Ay By].
  destruct (double_to_uint16_spec _ _ Hw) as [Aw Bw].
  destruct (double_to_uint16_spec _ _ Hh) as [Ah Bh].
  unfold draw_util_rectangle, draw_util_set_source_color. split.
  - intros (Ix & Iy & Iw & Ih).
    rewrite Ax, Ay, Aw, Ah by assumption. reflexivity.
  - intros Hout W hd wd. simpl.
    destruct (hd _ wd) as [[] w1].
    destruct (in_int16_dec zx) as [Ix|N];
      [rewrite (Ax Ix)|rewrite (Bx N); reflexivity].
    destruct (in_int16_dec zy) as [Iy|N];
      [rewrite (Ay Iy)|rewrite (By N); reflexivity].
    destruct (in_uint16_dec zw) as [Iw|N];
      [rewrite (Aw Iw)|rewrite (Bw N); reflexivity].
    destruct (in_uint16_dec zh) as [Ih|N];
      [rewrite (Ah Ih)|rewrite (Bh N); reflexivity].
    exfalso. apply Hout. auto.
Qed.

Lemma rectangle_xcb_conversions_witness :
  draw_util_rectangle false 7 bar_surface
    (mk_color Double.one Double.zero Double.zero Double.one 4294901760)
    (Double.of_Z 10) (Double.of_Z 0)
    (Double.div (Double.of_Z 201) (Double.of_Z 2)) (Double.of_Z 24)
  = (call (xcb_change_gc 7 31457286 12 [4294901760; 4294901760]) ;;
     call (xcb_poly_fill_rectangle 7 31457285 31457286
                                   [mk_rect 10 0 100 24]))%prog.
Proof.
  apply (rectangle_xcb_conversions 7 bar_surface
           (mk_color Double.one Double.zero Double.zero Double.one 4294901760)
           (Double.of_Z 10) (Double.of_Z 0)
           (Double.div (Double.of_Z 201) (Double.of_Z 2)) (Double.of_Z 24)
           10 0 100 24 eq_refl eq_refl eq_refl eq_refl).
  unfold in_int16, in_uint16. lia.
Defined.

Example rectangle_xcb_negative_width :
  run xserver_handler
      (draw_util_rectangle false 7 bar_surface
         (mk_color Double.one Double.zero Double.zero Double.one 4294901760)
         (Double.of_Z 10) (Double.of_Z 0) (Double.of_Z (-1)) (Double.of_Z 24))
      xserver_start
  = Undefined.
Proof. reflexivity. Qed.

(** X7. In the XCB build [draw_util_clear_surface] is defined for every
    surface: it fills the rectangle at (0, 0) whose width and height are
    the recorded ones reduced modulo 2^16.  That is the recorded size
    exactly when the size fits 16 bits. *)
Theorem clear_surface_xcb_rectangle (xcb_connection : Z) (s : surface_t)
    (color : color_t) :
  exists r,
    draw_util_clear_surface false xcb_connection s color =
    (call (xcb_change_gc xcb_connection (surface_gc s) 12
                         [colorpixel color; colorpixel color]) ;;
     call (xcb_poly_fill_rectangle xcb_connection (surface_id s)
                                   (surface_gc s) [r]))%prog /\
    rect_x r = 0 /\ rect_y r = 0 /\
    in_uint16 (rect_width r) /\ in_uint16 (rect_height r) /\
    (rect_width r - surface_width s) mod 65536 = 0 /\
    (rect_height r - surface_height s) mod 65536 = 0 /\
    (rect_width r = surface_width s <-> in_uint16 (surface_width s)) /\
    (rect_height r = surface_height s <-> in_uint16 (surface_height s)).
Proof.
  exists (mk_rect 0 0 (uint16_wrap (surface_width s))
                  (uint16_wrap (surface_height s))).
  cbn [rect_x rect_y rect_width rect_height].
  unfold in_uint16, uint16_wrap.
  pose proof (Z.mod_pos_bound (surface_width s) 65536 ltac:(lia)) as Bw.
  pose proof (Z.mod_pos_bound (surface_height s) 65536 ltac:(lia)) as Bh.
  assert (M : forall z, (z mod 65536 - z) mod 65536 = 0).
  { intros z. rewrite Zminus_mod_idemp_l, Z.sub_diag. reflexivity. }
  assert (I : forall z, z mod 65536 = z <-> 0 <= z <= 65535).
  { intros z. split; intros E.
    - pose proof (Z.mod_pos_bound z 65536 ltac:(lia)) as B.
      rewrite E in B. lia.
    - apply Z.mod_small. lia. }
  repeat split; try reflexivity; try lia; try apply M; apply I.
Qed.

Example clear_surface_xcb_wide :
  trace (draw_util_clear_surface false 7
           (mk_surface 31457285 31457286 65636 24 0 0)
           (mk_color Double.zero Double.zero Double.zero Double.one 4278190080))
  = [xcb_change_gc 7 31457286 12 [4278190080; 4278190080];
     xcb_poly_fill_rectangle 7 31457285 31457286 [mk_rect 0 0 100 24]].
Proof. reflexivity. Qed.

(** X8. In the XCB build clearing a surface whose size fits 16 bits is
    drawing a rectangle of the recorded size at (0, 0). *)
Theorem clear_surface_is_full_rectangle (xcb_connection : Z) (s : surface_t)
    (color : color_t) :
  in_uint16 (surface_width s) -> in_uint16 (surface_height s) ->
  draw_util_clear_surface false xcb_connection s color =
  draw_util_rectangle false xcb_connection s color
    (Double.of_Z 0) (Double.of_Z 0)
    (Double.of_Z (surface_width s)) (Double.of_Z (surface_height s)).
Proof.
  intros Hw Hh. unfold draw_util_clear_surface, draw_util_rectangle.
  rewrite int16_of_zero, (uint16_of_Z _ Hw), (uint16_of_Z _ Hh).
  rewrite (uint16_wrap_id _ Hw), (uint16_wrap_id _ Hh). reflexivity.
Qed.

Lemma clear_surface_is_full_rectangle_witness :
  draw_util_clear_surface false 7 bar_surface
    (mk_color Double.zero Double.zero Double.zero Double.one 4278190080) =
  draw_util_rectangle false 7 bar_surface
    (mk_color Double.zero Double.zero Double.zero Double.one 4278190080)
    (Double.of_Z 0) (Double.of_Z 0) (Double.of_Z 1920) (Double.of_Z 24).
Proof.
  apply (clear_surface_is_full_rectangle 7 bar_surface
           (mk_color Double.zero Double.zero Double.zero Double.one 4278190080));
    unfold in_uint16; simpl; lia.
Defined.

(** X9. [draw_util_text] makes the same two libi3 calls in both builds,
    with the pixel values of the two colors and the position unchanged; the
    cairo build flushes the surface before them and marks it dirty after
    them, and adds nothing else. *)
Theorem text_same_calls_in_both_builds (visual_type text : Z) (s : surface_t)
    (fg_color bg_color : color_t) (x y max_width : Z) :
  let t cairo := trace (draw_util_text cairo visual_type text s
                                       fg_color bg_color x y max_width) in
  xcb_calls (t true) = t false /\
  xcb_calls (t false) = t false /\
  t true = CAIRO_SURFACE_FLUSH (surface_surface s) :: t false
           ++ [cairo_surface_mark_dirty (surface_surface s)] /\
  In (draw_text text (surface_id s) (surface_gc s) visual_type x y max_width)
     (t false) /\
  In (set_font_colors (surface_gc s) (colorpixel fg_color)
                      (colorpixel bg_color)) (t false).
Proof.
  cbv zeta. repeat split; try reflexivity; simpl; auto.
Qed.

(** X10. What of a color reaches the calls.  The XCB build uses only the
    pixel value; the cairo build uses only the four channels for
    rectangles and clearing, but only the pixel value for text. *)
Theorem color_fields_used (xcb_connection visual_type : Z) (s : surface_t)
    (c1 c2 : color_t) :
  (colorpixel c1 = colorpixel c2 ->
   (forall x y w h,
      draw_util_rectangle false xcb_connection s c1 x y w h =
      draw_util_rectangle false xcb_connection s c2 x y w h) /\
   draw_util_clear_surface false xcb_connection s c1 =
   draw_util_clear_surface false xcb_connection s c2 /\
   (forall cairo text bg x y max_width,
      draw_util_text cairo visual_type text s c1 bg x y max_width =
      draw_util_text cairo visual_type text s c2 bg x y max_width) /\
   (forall cairo text fg x y max_width,
      draw_util_text cairo visual_type text s fg c1 x y max_width =
      draw_util_text cairo visual_type text s fg c2 x y max_width)) /\
  (channels c1 = channels c2 ->
   (forall x y w h,
      draw_util_rectangle true xcb_connection s c1 x y w h =
      draw_util_rectangle true xcb_connection s c2 x y w h) /\
   draw_util_clear_surface true xcb_connection s c1 =
   draw_util_clear_surface true xcb_connection s c2).
Proof.
  split.
  - intros E. unfold draw_util_rectangle, draw_util_clear_surface,
      draw_util_text, draw_util_set_source_color.
    rewrite E. repeat split; reflexivity.
  - unfold channels. intros [= Er Eg Eb Ea].
    unfold draw_util_rectangle, draw_util_clear_surface,
      draw_util_set_source_color.
    rewrite Er, Eg, Eb, Ea. repeat split; reflexivity.
Qed.

Lemma color_fields_used_witness :
  draw_util_text true 8 1 bar_surface
    (mk_color Double.one Double.one Double.one Double.one 4294967295)
    (mk_color Double.zero Double.zero Double.zero Double.one 4278190080) 0 0 100
  =
  draw_util_text true 8 1 bar_surface
    (mk_color Double.one Double.one Double.one Double.zero 4294967295)
    (mk_color Double.zero Double.zero Double.zero Double.one 4278190080) 0 0 100.
Proof.
  apply (proj1 (color_fields_used 7 8 bar_surface
                  (mk_color Double.one Double.one Double.one Double.one
                            4294967295)
                  (mk_color Double.one Double.one Double.one Double.zero
                            4294967295))).
  reflexivity.
Defined.

(** ** Runs that return *)

Lemma always_returns_ret {A : Type} (a : A) : always_returns (Ret a).
Proof. intros W h w. simpl. eauto. Qed.

Lemma always_returns_call (e : event) : always_returns (call e).
Proof.
  intros W h w. unfold call. simpl. destruct (h e w) as [r w']. eauto.
Qed.

Lemma always_returns_bind {A B : Type} (p : prog A) (f : A -> prog B) :
  always_returns p -> (forall a, always_returns (f a)) ->
  always_returns (bind p f).
Proof.
  intros Hp Hf W h w. rewrite run_bind.
  destruct (Hp W h w) as (a & w' & ->). apply Hf.
Qed.

Ltac returns :=
  repeat first
    [ match goal with
      | |- always_returns (call ?e) => exact (always_returns_call e)
      end
    | apply always_returns_ret
    | apply always_returns_bind; [|intros ?]
    | progress cbv beta iota ].

(** X11. Only [draw_util_surface_init] can end the process.  Whatever the
    server answers, [draw_util_surface_free], [draw_util_text] and
    [draw_util_clear_surface] return in both builds, and in the cairo build
    [draw_util_rectangle] and [draw_util_copy_surface] return for all
    arguments, those that are not finite included. *)
Theorem drawing_always_returns (cairo : bool) (xcb_connection visual_type : Z)
    (s src : surface_t) (color fg bg : color_t) (text tx ty max_width : Z)
    (x y w h dx dy : Double.double) :
  always_returns (draw_util_surface_free cairo xcb_connection s) /\
  always_returns (draw_util_text cairo visual_type text s fg bg tx ty max_width) /\
  always_returns (draw_util_clear_surface cairo xcb_connection s color) /\
  always_returns (draw_util_rectangle true xcb_connection s color x y w h) /\
  always_returns (draw_util_copy_surface true xcb_connection src s
                                         x y dx dy w h).
Proof.
  unfold draw_util_surface_free, draw_util_text, draw_util_clear_surface,
    draw_util_rectangle, draw_util_copy_surface, draw_util_set_source_color.
  repeat split; destruct cairo; returns.
Qed.

Example rectangle_cairo_returns_on_nan :
  exists w',
    run xserver_handler
        (draw_util_rectangle true 7 bar_surface
           (mk_color Double.one Double.zero Double.zero Double.one 4294901760)
           S754_nan (Double.of_Z 0) (S754_infinity false) (Double.of_Z (-1)))
        xserver_start
    = Returned tt w'.
Proof. eexists. reflexivity. Qed.

(** ** The state of the cairo context *)

Lemma gstate_eta (g : cairo_gstate) :
  mk_gstate (gs_operator g) (gs_source g) (gs_saved g) = g.
Proof. now destruct g. Qed.

(** X12. In the cairo build the drawing functions draw with the operator
    SOURCE and their own source, whatever the context was set to, and they
    leave the operator, the source and the saved states of the context as
    they found them. *)
Theorem cairo_state_restored (xcb_connection : Z) (s src : surface_t)
    (color : color_t) (x y w h sx sy : Double.double) (g : cairo_gstate) :
  let cr := surface_cr s in
  let rectangle :=
    trace (draw_util_rectangle true xcb_connection s color x y w h) in
  let clear := trace (draw_util_clear_surface true xcb_connection s color) in
  let copy :=
    trace (draw_util_copy_surface true xcb_connection src s sx sy x y w h) in
  let paint := source_rgba (red color) (green color) (blue color)
                           (alpha color) in
  (cairo_state_after cr rectangle g = g /\
   drawn_with cr rectangle g = [(CAIRO_OPERATOR_SOURCE, paint)]) /\
  (cairo_state_after cr clear g = g /\
   drawn_with cr clear g = [(CAIRO_OPERATOR_SOURCE, paint)]) /\
  (cairo_state_after cr copy g = g /\
   drawn_with cr copy g =
   [(CAIRO_OPERATOR_SOURCE,
     source_surface (surface_surface src) (Double.sub x sx) sy)]).
Proof.
  cbv zeta. unfold cairo_state_after.
  repeat split; cbn; rewrite ?Z.eqb_refl; cbn; rewrite ?Z.eqb_refl;
    try apply gstate_eta; reflexivity.
Qed.

(** ** What [draw_util_surface_init] creates, [draw_util_surface_free]
    releases *)

(** X13. When the graphics context is created, freeing the surface that
    [draw_util_surface_init] returned releases what was created and
    nothing else: the graphics context of the generated id and, in the
    cairo build, the cairo surface and the context made for it. *)
Theorem init_then_free (cairo : bool) (xcb_connection visual_type : Z)
    (W : Type) (hd : handler W) (wd : W) (s : surface_t)
    (drawable width height : Z) :
  gc_request_failed xcb_connection hd wd drawable = false ->
  exists gc cookie cs cr w',
    run (logged hd)
        (s' <- draw_util_surface_init cairo xcb_connection visual_type
                                      s drawable width height ;;
         draw_util_surface_free cairo xcb_connection s')%prog
        ([], wd)
    = Returned tt
        ([answer (xcb_generate_id xcb_connection) gc;
          answer (xcb_create_gc_checked xcb_connection gc drawable 0 []) cookie;
          answer (xcb_request_failed cookie gc_error_message) 0]
         ++ (if cairo
             then [answer (cairo_xcb_surface_create xcb_connection drawable
                             visual_type width height) cs;
                   answer (cairo_create cs) cr]
             else [])
         ++ [answer (xcb_free_gc xcb_connection gc) tt]
         ++ (if cairo
             then [answer (cairo_surface_destroy cs) tt;
                   answer (cairo_destroy cr) tt]
             else []),
         w').
Proof.
  unfold gc_request_failed. intros Hok.
  rewrite run_bind, init_run. unfold logged at 1 2 3. cbn [snd fst].
  destruct (hd (xcb_generate_id xcb_connection) wd) as [gc w1]. cbn [snd fst].
  destruct (hd (xcb_create_gc_checked xcb_connection gc drawable 0 []) w1)
    as [cookie w2]. cbn [snd fst].
  destruct (hd (xcb_request_failed cookie gc_error_message) w2)
    as [failed w3]. cbn [snd fst].
  rewrite Hok. apply negb_false_iff, Z.eqb_eq in Hok. subst failed.
  unfold draw_util_surface_free. destruct cairo.
  - unfold logged at 1 2. cbn [snd fst].
    destruct (hd (cairo_xcb_surface_create xcb_connection drawable
                    visual_type width height) w3) as [cs w4]. cbn [snd fst].
    destruct (hd (cairo_create cs) w4) as [cr w5]. cbn [snd fst].
    cbn [surface_gc surface_surface surface_cr]. simpl.
    unfold logged at 1. cbn [snd fst].
    destruct (hd (xcb_free_gc xcb_connection gc) w5) as [[] w6].
    unfold logged at 1. cbn [snd fst].
    destruct (hd (cairo_surface_destroy cs) w6) as [[] w7].
    unfold logged at 1. cbn [snd fst].
    destruct (hd (cairo_destroy cr) w7) as [[] w8].
    exists gc, cookie, cs, cr, w8. reflexivity.
  - cbn [surface_gc]. simpl.
    unfold logged at 1. cbn [snd fst].
    destruct (hd (xcb_free_gc xcb_connection gc) w3) as [[] w4].
    exists gc, cookie, 0, 0, w4. reflexivity.
Qed.

Lemma init_then_free_witness :
  exists gc cookie cs cr w',
    run (logged xserver_handler)
        (s' <- draw_util_surface_init true 7 8 blank_surface
                                      31457285 1920 24 ;;
         draw_util_surface_free true 7 s')%prog
        ([], xserver_start)
    = Returned tt
        ([answer (xcb_generate_id 7) gc;
          answer (xcb_create_gc_checked 7 gc 31457285 0 []) cookie;
          answer (xcb_request_failed cookie gc_error_message) 0]
         ++ [answer (cairo_xcb_surface_create 7 31457285 8 1920 24) cs;
             answer (cairo_create cs) cr]
         ++ [answer (xcb_free_gc 7 gc) tt]
         ++ [answer (cairo_surface_destroy cs) tt;
             answer (cairo_destroy cr) tt],
         w').
Proof.
  apply (init_then_free true 7 8 xserver xserver_handler xserver_start
           blank_surface 31457285 1920 24).
  reflexivity.
Defined.

(** X14. When the graphics context cannot be created the process ends
    right after the check, in both builds: three calls were made, the last
    one answered with the error, and no cairo surface or context exists. *)
Theorem init_failure_stops_at_check (cairo : bool)
    (xcb_connection visual_type : Z) (W : Type) (hd : handler W) (wd : W)
    (s : surface_t) (drawable width height : Z) :
  gc_request_failed xcb_connection hd wd drawable = true ->
  exists gc cookie err w',
    err <> 0 /\
    run (logged hd)
        (draw_util_surface_init cairo xcb_connection visual_type
                                s drawable width height)
        ([], wd)
    = Exited EXIT_FAILURE
        ([answer (xcb_generate_id xcb_connection) gc;
          answer (xcb_create_gc_checked xcb_connection gc drawable 0 []) cookie;
          answer (xcb_request_failed cookie gc_error_message) err],
         w').
Proof.
  unfold gc_request_failed. intros Hko.
  rewrite init_run. unfold logged at 1 2 3. cbn [snd fst].
  destruct (hd (xcb_generate_id xcb_connection) wd) as [gc w1]. cbn [snd fst].
  destruct (hd (xcb_create_gc_checked xcb_connection gc drawable 0 []) w1)
    as [cookie w2]. cbn [snd fst].
  destruct (hd (xcb_request_failed cookie gc_error_message) w2)
    as [failed w3]. cbn [snd fst].
  rewrite Hko. exists gc, cookie, failed, w3. split; [|reflexivity].
  apply negb_true_iff, Z.eqb_neq in Hko. exact Hko.
Qed.

Lemma init_failure_stops_at_check_witness :
  exists gc cookie err w',
    err <> 0 /\
    run (logged xserver_handler)
        (draw_util_surface_init true 7 8 blank_surface 0 1920 24)
        ([], xserver_start)
    = Exited EXIT_FAILURE
        ([answer (xcb_generate_id 7) gc;
          answer (xcb_create_gc_checked 7 gc 0 0 []) cookie;
          answer (xcb_request_failed cookie gc_error_message) err],
         w').
Proof.
  apply (init_failure_stops_at_check true 7 8 xserver xserver_handler
           xserver_start blank_surface 0 1920 24).
  reflexivity.
Defined.

(** ** Cairo and XCB drawing stay in step *)

Lemma trace_bind {A B : Type} (p : prog A) (f : A -> prog B) :
  trace (bind p f) =
  trace p ++ match default_result p with
             | Some a => trace (f a)
             | None => []
             end.
Proof.
  induction p as [a|e k IH|n|]; simpl; try reflexivity.
  - f_equal. apply IH.
Qed.

Lemma draw_cairo_result (xcb_connection visual_type : Z) (s : surface_t)
    (d : drawing) :
  default_result (draw true xcb_connection visual_type s d) = Some tt.
Proof. destruct d; reflexivity. Qed.

Lemma draw_cairo_in_sync (xcb_connection visual_type : Z) (s : surface_t)
    (d : drawing) :
  sync_after s (trace (draw true xcb_connection visual_type s d)) in_sync
  = in_sync.
Proof.
  unfold sync_after, in_sync.
  destruct d as [color x y w h|color|text fg bg x y mw|src sx sy dx dy w h];
    cbn; rewrite ?Z.eqb_refl; cbn; rewrite ?Z.eqb_refl;
    cbn; rewrite ?Z.eqb_refl; try reflexivity.
  destruct (surface_surface src =? surface_surface s);
    cbn; rewrite ?Z.eqb_refl; reflexivity.
Qed.

(** X15. In the cairo build any sequence of rectangles, clears, texts and
    copies onto a surface keeps cairo and XCB in step: text is drawn
    through XCB only when all cairo drawing has been flushed, the surface
    is marked dirty before cairo draws again, and after the last call
    nothing is pending. *)
Theorem drawings_stay_in_sync (xcb_connection visual_type : Z)
    (s : surface_t) (l : list drawing) :
  sync_after s (trace (draw_all true xcb_connection visual_type s l)) in_sync
  = in_sync.
Proof.
  induction l as [|d l IH]; [reflexivity|].
  cbn [draw_all]. rewrite trace_bind, draw_cairo_result.
  unfold sync_after in *. rewrite fold_left_app.
  fold (sync_after s (trace (draw true xcb_connection visual_type s d)) in_sync).
  rewrite draw_cairo_in_sync. exact IH.
Qed.

(** Without the flush that ends [draw_util_rectangle], text drawn next
    would overtake the rectangle. *)
Example unflushed_rectangle_is_out_of_sync :
  sync_after bar_surface
    [cairo_fill (surface_cr bar_surface);
     draw_text 1 (surface_id bar_surface) (surface_gc bar_surface) 8 0 0 100]
    in_sync
  = None.
Proof. reflexivity. Qed.

(** ** One backend per build *)

(** X16. The switch selects one backend for drawing: in the cairo build
    rectangles, clears and copies make no XCB call, and in the XCB build
    no function of the file that draws or frees makes a cairo call,
    whatever the arguments are. *)
Theorem one_backend_per_build (xcb_connection visual_type : Z)
    (s src : surface_t) (color fg bg : color_t) (text tx ty max_width : Z)
    (x y w h sx sy : Double.double) :
  xcb_calls (trace (draw_util_rectangle true xcb_connection s color x y w h))
  = [] /\
  xcb_calls (trace (draw_util_clear_surface true xcb_connection s color))
  = [] /\
  xcb_calls (trace (draw_util_copy_surface true xcb_connection src s
                                           sx sy x y w h)) = [] /\
  existsb is_cairo
    (trace (draw_util_rectangle false xcb_connection s color x y w h))
  = false /\
  existsb is_cairo
    (trace (draw_util_clear_surface false xcb_connection s color)) = false /\
  existsb is_cairo
    (trace (draw_util_copy_surface false xcb_connection src s sx sy x y w h))
  = false /\
  existsb is_cairo
    (trace (draw_util_text false visual_type text s fg bg tx ty max_width))
  = false /\
  existsb is_cairo (trace (draw_util_surface_free false xcb_connection s))
  = false.
Proof.
  repeat split; try reflexivity.
  - unfold draw_util_rectangle, draw_util_set_source_color.
    destruct (double_to_int16 x), (double_to_int16 y),
      (double_to_uint16 w), (double_to_uint16 h); reflexivity.
  - unfold draw_util_copy_surface.
    destruct (double_to_int16 sx), (double_to_int16 sy),
      (double_to_int16 x), (double_to_int16 y),
      (double_to_uint16 w), (double_to_uint16 h); reflexivity.
Qed.

(** ** Integer arguments *)

Lemma int16_of_Z (n : Z) :
  in_int16 n -> double_to_int16 (Double.of_Z n) = Some n.
Proof.
  unfold in_int16. intros H.
  assert (A : forall_bits 16 0 (fun k =>
                match double_to_int16 (Double.of_Z (k - 32768)) with
                | Some m => m =? k - 32768
                | None => false
                end) = true)
    by (vm_compute; reflexivity).
  pose proof (forall_bits_spec 16 _ 0 A (n + 32768) ltac:(simpl; lia)) as B.
  cbv beta in B. replace (n + 32768 - 32768) with n in B by lia.
  destruct (double_to_int16 (Double.of_Z n)); [|discriminate].
  apply Z.eqb_eq in B. now subst.
Qed.

(** X17. Integer arguments come through unchanged.  A caller's integers
    become doubles at the call and 16-bit integers again in the XCB build:
    when the offsets fit [int16_t] and the sizes [uint16_t], the copy and
    the fill are requested with exactly the caller's integers. *)
Theorem xcb_integer_arguments (xcb_connection : Z) (src dest : surface_t)
    (color : color_t) (sx sy dx dy w h : Z) :
  in_int16 sx -> in_int16 sy -> in_int16 dx -> in_int16 dy ->
  in_uint16 w -> in_uint16 h ->
  draw_util_copy_surface false xcb_connection src dest
    (Double.of_Z sx) (Double.of_Z sy) (Double.of_Z dx) (Double.of_Z dy)
    (Double.of_Z w) (Double.of_Z h)
  = call (xcb_copy_area xcb_connection (surface_id src) (surface_id dest)
                        (surface_gc dest) sx sy dx dy w h) /\
  trace (draw_util_rectangle false xcb_connection dest color
           (Double.of_Z dx) (Double.of_Z dy) (Double.of_Z w) (Double.of_Z h))
  = [xcb_change_gc xcb_connection (surface_gc dest) 12
                   [colorpixel color; colorpixel color];
     xcb_poly_fill_rectangle xcb_connection (surface_id dest)
                             (surface_gc dest) [mk_rect dx dy w h]].
Proof.
  intros Hsx Hsy Hdx Hdy Hw Hh.
  unfold draw_util_copy_surface, draw_util_rectangle,
    draw_util_set_source_color.
  rewrite (int16_of_Z _ Hsx), (int16_of_Z _ Hsy), (int16_of_Z _ Hdx),
    (int16_of_Z _ Hdy), (uint16_of_Z _ Hw), (uint16_of_Z _ Hh).
  split; reflexivity.
Qed.

Lemma xcb_integer_arguments_witness :
  draw_util_copy_surface false 7 buffer_surface bar_surface
    (Double.of_Z 0) (Double.of_Z 0) (Double.of_Z (-3)) (Double.of_Z 0)
    (Double.of_Z 1920) (Double.of_Z 24)
  = call (xcb_copy_area 7 31457287 31457285 31457286 0 0 (-3) 0 1920 24) /\
  trace (draw_util_rectangle false 7 bar_surface
           (mk_color Double.one Double.zero Double.zero Double.one 4294901760)
           (Double.of_Z (-3)) (Double.of_Z 0)
           (Double.of_Z 1920) (Double.of_Z 24))
  = [xcb_change_gc 7 31457286 12 [4294901760; 4294901760];
     xcb_poly_fill_rectangle 7 31457285 31457286 [mk_rect (-3) 0 1920 24]].
Proof.
  apply (xcb_integer_arguments 7 buffer_surface bar_surface
           (mk_color Double.one Double.zero Double.zero Double.one 4294901760)
           0 0 (-3) 0 1920 24);
    unfold in_int16, in_uint16; lia.
Defined.

(** ** Initialising memory that holds anything *)

(** X18. [draw_util_surface_init] does not read the surface it is given.
    In the cairo build the outcome is the same for any two old contents;
    in the XCB build, where the cairo fields do not exist, the outcomes
    agree on the drawable, the graphics context, the width and the height
    and on the state of the server. *)
Theorem init_ignores_old_surface (xcb_connection visual_type : Z) (W : Type)
    (hd : handler W) (wd : W) (s1 s2 : surface_t)
    (drawable width height : Z) :
  run hd (draw_util_surface_init true xcb_connection visual_type
                                 s1 drawable width height) wd =
  run hd (draw_util_surface_init true xcb_connection visual_type
                                 s2 drawable width height) wd /\
  same_xcb_outcome
    (run hd (draw_util_surface_init false xcb_connection visual_type
                                    s1 drawable width height) wd)
    (run hd (draw_util_surface_init false xcb_connection visual_type
                                    s2 drawable width height) wd).
Proof.
  rewrite !init_run. split; [reflexivity|].
  destruct (hd (xcb_generate_id xcb_connection) wd) as [gc w1].
  destruct (hd (xcb_create_gc_checked xcb_connection gc drawable 0 []) w1)
    as [cookie w2].
  destruct (hd (xcb_request_failed cookie gc_error_message) w2)
    as [failed w3].
  destruct (negb (failed =? 0)); simpl; auto.
Qed.

(** * Copying onto a surface and clearing it *)

Lemma copy_xcb_trace (xcb_connection : Z) (src dest : surface_t)
    (src_x src_y dest_x dest_y width height : Double.double)
    (sx sy dx dy w h : Z) :
  double_to_int16 src_x = Some sx -> double_to_int16 src_y = Some sy ->
  double_to_int16 dest_x = Some dx -> double_to_int16 dest_y = Some dy ->
  double_to_uint16 width = Some w -> double_to_uint16 height = Some h ->
  draw_util_copy_surface false xcb_connection src dest
    src_x src_y dest_x dest_y width height
  = call (xcb_copy_area xcb_connection (surface_id src) (surface_id dest)
                        (surface_gc dest) sx sy dx dy w h).
Proof.
  intros Hsx Hsy Hdx Hdy Hw Hh. unfold draw_util_copy_surface.
  rewrite Hsx, Hsy, Hdx, Hdy, Hw, Hh. reflexivity.
Qed.

Lemma clear_cairo_pixel (xcb_connection : Z) (dest : surface_t)
    (color : color_t) (c : canvas) (X Y : Z) :
  cv_pixel
    (fold_left (render dest X Y)
       (trace (draw_util_clear_surface true xcb_connection dest color)) c)
  = Drawn (source_rgba (red color) (green color) (blue color) (alpha color)).
Proof.
  repeat (progress (cbn; rewrite ?Z.eqb_refl)). reflexivity.
Qed.

Lemma copy_then_clear_xcb (xcb_connection : Z) (src dest : surface_t)
    (color : color_t) (c : canvas) (X Y : Z)
    (src_x src_y dest_x dest_y width height : Double.double)
    (sx sy dx dy w h : Z) :
  double_to_int16 src_x = Some sx -> double_to_int16 src_y = Some sy ->
  double_to_int16 dest_x = Some dx -> double_to_int16 dest_y = Some dy ->
  double_to_uint16 width = Some w -> double_to_uint16 height = Some h ->
  let copy := draw_util_copy_surface false xcb_connection src dest
                src_x src_y dest_x dest_y width height in
  let clear := draw_util_clear_surface false xcb_connection dest color in
  let cleared := inside 0 0 (uint16_wrap (surface_width dest))
                        (uint16_wrap (surface_height dest)) X Y in
  (inside dx dy w h X Y = true -> cleared = true) ->
  pixel_after dest X Y (trace (copy ;; clear)%prog) c =
    pixel_after dest X Y (trace clear) c /\
  (cleared = true ->
   pixel_after dest X Y (trace clear) c = Filled (Some (colorpixel color))).
Proof.
  intros Hsx Hsy Hdx Hdy Hw Hh copy clear cleared Hin.
  subst copy clear cleared.
  rewrite (copy_xcb_trace _ _ _ _ _ _ _ _ _ _ _ _ _ _ _
             Hsx Hsy Hdx Hdy Hw Hh).
  unfold pixel_after. repeat (progress (cbn; rewrite ?Z.eqb_refl)).
  unfold in_rectangle. cbn [rect_x rect_y rect_width rect_height].
  rewrite ?orb_false_r.
  destruct (inside 0 0 (uint16_wrap (surface_width dest))
              (uint16_wrap (surface_height dest)) X Y) eqn:C.
  - split; [reflexivity | intros _; reflexivity].
  - destruct (inside dx dy w h X Y) eqn:I.
    + specialize (Hin eq_refl). discriminate.
    + split; [reflexivity | discriminate].
Qed.

(** C6. A copy onto a surface followed by a clear leaves in the surface
    what the clear alone leaves, nothing of the copy.  In the cairo build
    this holds for every pixel and all arguments: the clear paints every
    pixel with the color.  In the XCB build the clear fills the recorded
    rectangle (sizes modulo 2^16): for a copy into that same region every
    pixel is the same after both; for any other copy a pixel is the same
    after both as soon as the copy, where it writes the pixel, writes
    inside that rectangle, and every pixel of the rectangle holds the
    color.  The arguments of the copy are those the XCB build can convert
    to 16-bit integers. *)
Theorem copy_then_clear_is_clear (xcb_connection : Z) (src dest : surface_t)
    (color : color_t) (c : canvas) (X Y : Z) :
  (forall src_x src_y dest_x dest_y width height,
     let copy := draw_util_copy_surface true xcb_connection src dest
                   src_x src_y dest_x dest_y width height in
     let clear := draw_util_clear_surface true xcb_connection dest color in
     pixel_after dest X Y (trace (copy ;; clear)%prog) c =
       pixel_after dest X Y (trace clear) c /\
     pixel_after dest X Y (trace clear) c =
       Drawn (source_rgba (red color) (green color) (blue color)
                          (alpha color))) /\
  (forall src_x src_y sx sy,
     double_to_int16 src_x = Some sx -> double_to_int16 src_y = Some sy ->
     let copy := draw_util_copy_surface false xcb_connection src dest
                   src_x src_y (Double.of_Z 0) (Double.of_Z 0)
                   (Double.of_Z (uint16_wrap (surface_width dest)))
                   (Double.of_Z (uint16_wrap (surface_height dest))) in
     let clear := draw_util_clear_surface false xcb_connection dest color in
     pixel_after dest X Y (trace (copy ;; clear)%prog) c =
       pixel_after dest X Y (trace clear) c) /\
  (forall src_x src_y dest_x dest_y width height sx sy dx dy w h,
     double_to_int16 src_x = Some sx -> double_to_int16 src_y = Some sy ->
     double_to_int16 dest_x = Some dx -> double_to_int16 dest_y = Some dy ->
     double_to_uint16 width = Some w -> double_to_uint16 height = Some h ->
     let copy := draw_util_copy_surface false xcb_connection src dest
                   src_x src_y dest_x dest_y width height in
     let clear := draw_util_clear_surface false xcb_connection dest color in
     let cleared := inside 0 0 (uint16_wrap (surface_width dest))
                           (uint16_wrap (surface_height dest)) X Y in
     (inside dx dy w h X Y = true -> cleared = true) ->
     pixel_after dest X Y (trace (copy ;; clear)%prog) c =
       pixel_after dest X Y (trace clear) c /\
     (cleared = true ->
      pixel_after dest X Y (trace clear) c =
        Filled (Some (colorpixel color)))).
Proof.
  split; [|split].
  - intros src_x src_y dest_x dest_y width height copy clear.
    subst copy clear. rewrite trace_bind.
    change (default_result
              (draw_util_copy_surface true xcb_connection src dest
                 src_x src_y dest_x dest_y width height)) with (Some tt).
    unfold pixel_after. rewrite fold_left_app, !clear_cairo_pixel.
    split; reflexivity.
  - intros src_x src_y sx sy Hsx Hsy copy clear. subst copy clear.
    assert (Iw : in_uint16 (uint16_wrap (surface_width dest))).
    { unfold in_uint16, uint16_wrap.
      pose proof (Z.mod_pos_bound (surface_width dest) 65536 ltac:(lia)).
      lia. }
    assert (Ih : in_uint16 (uint16_wrap (surface_height dest))).
    { unfold in_uint16, uint16_wrap.
      pose proof (Z.mod_pos_bound (surface_height dest) 65536 ltac:(lia)).
      lia. }
    apply (copy_then_clear_xcb xcb_connection src dest color c X Y
             src_x src_y (Double.of_Z 0) (Double.of_Z 0) _ _
             sx sy 0 0 _ _ Hsx Hsy int16_of_zero int16_of_zero
             (uint16_of_Z _ Iw) (uint16_of_Z _ Ih)).
    exact (fun H => H).
  - intros src_x src_y dest_x dest_y width height sx sy dx dy w h
      Hsx Hsy Hdx Hdy Hw Hh.
    exact (copy_then_clear_xcb xcb_connection src dest color c X Y
             src_x src_y dest_x dest_y width height sx sy dx dy w h
             Hsx Hsy Hdx Hdy Hw Hh).
Qed.

Lemma copy_then_clear_is_clear_witness :
  let copy := draw_util_copy_surface false 7 buffer_surface bar_surface
                (Double.of_Z 0) (Double.of_Z 0) (Double.of_Z 0) (Double.of_Z 0)
                (Double.of_Z 1920) (Double.of_Z 24) in
  let clear := draw_util_clear_surface false 7 bar_surface
                 (mk_color Double.zero Double.zero Double.zero Double.one
                           4278190080) in
  let c := mk_canvas (mk_gstate CAIRO_OPERATOR_OVER
                                (source_rgba Double.zero Double.zero
                                             Double.zero Double.one) [])
                     None [] Kept in
  pixel_after bar_surface 100 5 (trace copy) c = Copied 31457287 100 5 /\
  pixel_after bar_surface 100 5 (trace (copy ;; clear)%prog) c =
    pixel_after bar_surface 100 5 (trace clear) c /\
  pixel_after bar_surface 100 5 (trace clear) c = Filled (Some 4278190080).
Proof.
  cbv zeta. split; [reflexivity|].
  destruct (proj2 (proj2 (copy_then_clear_is_clear 7 buffer_surface
                     bar_surface
                     (mk_color Double.zero Double.zero Double.zero Double.one
                               4278190080)
                     (mk_canvas (mk_gstate CAIRO_OPERATOR_OVER
                                   (source_rgba Double.zero Double.zero
                                                Double.zero Double.one) [])
                                None [] Kept) 100 5))
                  (Double.of_Z 0) (Double.of_Z 0) (Double.of_Z 0)
                  (Double.of_Z 0) (Double.of_Z 1920) (Double.of_Z 24)
                  0 0 0 0 1920 24 eq_refl eq_refl eq_refl eq_refl eq_refl
                  eq_refl (fun _ => eq_refl)) as [E F].
  split; [exact E | exact (F eq_refl)].
Defined.

(** The condition on the XCB build is needed: a copy beside the recorded
    rectangle stays after the clear. *)
Example copy_outside_the_surface_stays :
  let copy := draw_util_copy_surface false 7 buffer_surface bar_surface
                (Double.of_Z 0) (Double.of_Z 0) (Double.of_Z 0) (Double.of_Z 24)
                (Double.of_Z 10) (Double.of_Z 10) in
  let clear := draw_util_clear_surface false 7 bar_surface
                 (mk_color Double.zero Double.zero Double.zero Double.one
                           4278190080) in
  let c := mk_canvas (mk_gstate CAIRO_OPERATOR_OVER
                                (source_rgba Double.zero Double.zero
                                             Double.zero Double.one) [])
                     None [] Kept in
  pixel_after bar_surface 3 30 (trace (copy ;; clear)%prog) c
    = Copied 31457287 3 6 /\
  pixel_after bar_surface 3 30 (trace clear) c = Kept.
Proof. split; reflexivity. Qed.
